(** * MemoryBridge: a shallow embedding of [memorybridge.py]

    The shared table [memories] is a finite map from the primary key [key]
    to the remaining columns.  Every method of [MemoryBridge] is a function
    in a small state-and-exception monad over that table which also records
    the SQL statements it executes and the lines it prints.

    Modelling conventions.
    - A Python [str] is a Rocq [string]; a character is a code point below
      256.  [str.upper] and SQLite's case folding act on the ASCII letters.
    - Python values are the JSON-shaped ones (None, bool, int, str, list,
      dict with str keys) together with tuples, which [json.dumps] writes as
      arrays, and sets, which it rejects.  Floats are left out.
    - [json.dumps] (default separators, [ensure_ascii=True]) and
      [json.loads] are written out on the text of the document.  A number
      with a fraction or an exponent, and an escape for a code point from
      256 on, decode to nothing here; [dumps] never writes either.
    - [datetime.now().isoformat()] is an input [now] of [store]; whether
      SQLite accepts the write is an input [disk] of [store]. *)

From Stdlib Require Import ZArith Ascii String DecimalString Decimal.
From Stdlib Require DecimalFacts DecimalPos DecimalN.
From Stdlib Require Import Sorting.Sorted.
From stdpp Require Import gmap strings list sorting.

Local Open Scope Z_scope.

(** Let [simpl] compute the concatenation of strings. *)
#[local] Arguments String.append !s1 s2 : simpl nomatch.

(** ** Text *)

Module Text.

Definition dquote : ascii := "034"%char.
Definition backslash : ascii := "092"%char.

Definition code (c : ascii) : nat := nat_of_ascii c.

Definition is_upper_letter (c : ascii) : bool :=
  (65 <=? code c)%nat && (code c <=? 90)%nat.

Definition is_lower_letter (c : ascii) : bool :=
  (97 <=? code c)%nat && (code c <=? 122)%nat.

Definition toupper (c : ascii) : ascii :=
  if is_lower_letter c then ascii_of_nat (code c - 32) else c.

Definition tolower (c : ascii) : ascii :=
  if is_upper_letter c then ascii_of_nat (code c + 32) else c.

Fixpoint map_chars (f : ascii -> ascii) (s : string) : string :=
  match s with
  | EmptyString => EmptyString
  | String c s' => String (f c) (map_chars f s')
  end.

(** [str.upper()] *)
Definition upper (s : string) : string := map_chars toupper s.


Definition is_empty (s : string) : bool :=
  match s with EmptyString => true | String _ _ => false end.



End Text.

(** ** Python values *)

#[local] Unset Elimination Schemes.
Inductive pyvalue : Type :=
  | PyNone
  | PyBool (b : bool)
  | PyInt (z : Z)
  | PyStr (s : string)
  | PyList (items : list pyvalue)
  | PyTuple (items : list pyvalue)
  | PyDict (members : list (string * pyvalue))
  | PySet (items : list pyvalue).
#[local] Set Elimination Schemes.

(** [bool(v)]: what [if v] tests. *)
Definition truthy (v : pyvalue) : bool :=
  match v with
  | PyNone => false
  | PyBool b => b
  | PyInt z => negb (z =? 0)
  | PyStr s => negb (Text.is_empty s)
  | PyList l | PyTuple l | PySet l => match l with [] => false | _ => true end
  | PyDict d => match d with [] => false | _ => true end
  end.

(** [type(v).__name__] *)
Definition type_name (v : pyvalue) : string :=
  match v with
  | PyNone => "NoneType"
  | PyBool _ => "bool"
  | PyInt _ => "int"
  | PyStr _ => "str"
  | PyList _ => "list"
  | PyTuple _ => "tuple"
  | PyDict _ => "dict"
  | PySet _ => "set"
  end.

(** The values of JSON's own type lattice: no tuple, no set, and the keys of
    every dict pairwise different (which Python's dict guarantees). *)
Fixpoint json_native (v : pyvalue) : bool :=
  match v with
  | PyNone | PyBool _ | PyInt _ | PyStr _ => true
  | PyList l => forallb json_native l
  | PyDict d =>
      bool_decide (NoDup (d.*1)) && forallb (fun kv => json_native kv.2) d
  | PyTuple _ | PySet _ => false
  end.

(** ** The [json] module *)

Module Json.
Import Text.

Definition hex_digit (n : nat) : ascii :=
  if (n <? 10)%nat then ascii_of_nat (48 + n) else ascii_of_nat (87 + n).

(** One character inside a string literal, [ensure_ascii=True]. *)
Definition escape_char (c : ascii) : string :=
  let n := code c in
  if (n =? 34)%nat then String backslash (String dquote EmptyString)
  else if (n =? 92)%nat then String backslash (String backslash EmptyString)
  else if (n =? 10)%nat then String backslash "n"
  else if (n =? 13)%nat then String backslash "r"
  else if (n =? 9)%nat then String backslash "t"
  else if (n =? 8)%nat then String backslash "b"
  else if (n =? 12)%nat then String backslash "f"
  else if (n <? 32)%nat || (126 <? n)%nat then
    String backslash
      (String "u" (String "0" (String "0"
         (String (hex_digit (n / 16)) (String (hex_digit (n mod 16)) EmptyString)))))
  else String c EmptyString.

Fixpoint escape (s : string) : string :=
  match s with
  | EmptyString => EmptyString
  | String c s' => escape_char c +:+ escape s'
  end.

Definition dumps_str (s : string) : string :=
  String dquote (escape s +:+ String dquote EmptyString).

Definition dumps_nat (n : N) : string :=
  NilZero.string_of_uint (N.to_uint n).

Definition dumps_int (z : Z) : string :=
  match z with
  | Z0 => "0"
  | Zpos p => dumps_nat (Npos p)
  | Zneg p => String "-" (dumps_nat (Npos p))
  end.

Definition member_text (k : string) (t : string) : string :=
  dumps_str k +:+ ": " +:+ t.

(** [json.dumps(v)]; [None] stands for the [TypeError] raised on a value
    that is not serializable. *)
Fixpoint dumps (v : pyvalue) : option string :=
  match v with
  | PyNone => Some "null"
  | PyBool true => Some "true"
  | PyBool false => Some "false"
  | PyInt z => Some (dumps_int z)
  | PyStr s => Some (dumps_str s)
  | PyList l | PyTuple l =>
      ts ← mapM dumps l;
      Some ("[" +:+ String.concat ", " ts +:+ "]")
  | PyDict d =>
      ts ← mapM (fun kv => t ← dumps kv.2; Some (member_text kv.1 t)) d;
      Some ("{" +:+ String.concat ", " ts +:+ "}")
  | PySet _ => None
  end.

(** *** Decoding *)

Definition is_ws (c : ascii) : bool :=
  let n := code c in
  (n =? 32)%nat || (n =? 9)%nat || (n =? 10)%nat || (n =? 13)%nat.

Definition is_digit (c : ascii) : bool :=
  (48 <=? code c)%nat && (code c <=? 57)%nat.

Fixpoint skip_ws (s : string) : string :=
  match s with
  | String c s' => if is_ws c then skip_ws s' else s
  | EmptyString => s
  end.

(** The longest run of decimal digits at the front of [s]. *)
Fixpoint span_digits (s : string) : string * string :=
  match s with
  | String c s' =>
      if is_digit c then
        let '(ds, rest) := span_digits s' in (String c ds, rest)
      else (EmptyString, s)
  | EmptyString => (EmptyString, s)
  end.

Definition hex_value (c : ascii) : option nat :=
  let n := code c in
  if is_digit c then Some (n - 48)%nat
  else if (97 <=? n)%nat && (n <=? 102)%nat then Some (n - 87)%nat
  else if (65 <=? n)%nat && (n <=? 70)%nat then Some (n - 55)%nat
  else None.

(** [\uXXXX]; a code point from 256 on has no character in this model. *)
Definition unescape_u (a b c d : ascii) : option ascii :=
  x3 ← hex_value a; x2 ← hex_value b; x1 ← hex_value c; x0 ← hex_value d;
  let n := (((x3 * 16 + x2) * 16 + x1) * 16 + x0)%nat in
  if (n <? 256)%nat then Some (ascii_of_nat n) else None.

Definition unescape_simple (c : ascii) : option ascii :=
  let n := code c in
  if (n =? 34)%nat then Some dquote
  else if (n =? 92)%nat then Some backslash
  else if (n =? 47)%nat then Some "/"%char
  else if (n =? 110)%nat then Some (ascii_of_nat 10)
  else if (n =? 114)%nat then Some (ascii_of_nat 13)
  else if (n =? 116)%nat then Some (ascii_of_nat 9)
  else if (n =? 98)%nat then Some (ascii_of_nat 8)
  else if (n =? 102)%nat then Some (ascii_of_nat 12)
  else None.

(** The body of a string literal, after its opening quote, up to and
    including the closing quote.  A raw control character is an error
    ([strict=True]). *)
Fixpoint scan_string (s : string) : option (string * string) :=
  match s with
  | EmptyString => None
  | String c s1 =>
      if (code c =? 34)%nat then Some (EmptyString, s1)
      else if (code c =? 92)%nat then
        match s1 with
        | String e s2 =>
            if (code e =? 117)%nat then
              match s2 with
              | String h3 (String h2 (String h1 (String h0 s3))) =>
                  x ← unescape_u h3 h2 h1 h0;
                  '(body, rest) ← scan_string s3;
                  Some (String x body, rest)
              | _ => None
              end
            else
              x ← unescape_simple e;
              '(body, rest) ← scan_string s2;
              Some (String x body, rest)
        | EmptyString => None
        end
      else if (code c <? 32)%nat then None
      else
        '(body, rest) ← scan_string s1;
        Some (String c body, rest)
  end.

(** An unsigned integer literal: no leading zero, and no fraction or
    exponent after it (a float has no value in this model). *)
Definition scan_nat (s : string) : option (N * string) :=
  let '(ds, rest) := span_digits s in
  match ds with
  | EmptyString => None
  | String d ds' =>
      if (code d =? 48)%nat && negb (is_empty ds') then None
      else
        match rest with
        | String c _ =>
            if (code c =? 46)%nat || (code c =? 101)%nat || (code c =? 69)%nat
            then None
            else u ← NilZero.uint_of_string ds; Some (N.of_uint u, rest)
        | EmptyString => u ← NilZero.uint_of_string ds; Some (N.of_uint u, rest)
        end
  end.

Fixpoint expect (word s : string) : option string :=
  match word, s with
  | EmptyString, _ => Some s
  | String w word', String c s' =>
      if Ascii.eqb w c then expect word' s' else None
  | String _ _, EmptyString => None
  end.

(** [dict(pairs)]: a repeated key keeps its first position and takes the
    last value. *)
Fixpoint dict_set (k : string) (v : pyvalue) (d : list (string * pyvalue))
  : list (string * pyvalue) :=
  match d with
  | [] => [(k, v)]
  | (k', v') :: d' =>
      if String.eqb k k' then (k, v) :: d' else (k', v') :: dict_set k v d'
  end.

Definition dict_of_pairs (l : list (string * pyvalue)) : list (string * pyvalue) :=
  fold_left (fun d kv => dict_set kv.1 kv.2 d) l [].

(** The recursive-descent decoder.  Every call passes on less fuel; each
    unit of fuel spent is paid for by a character of the text, so [loads]
    starts it with the length of the text. *)
Fixpoint parse_value (fuel : nat) (s : string) : option (pyvalue * string) :=
  match fuel with
  | O => None
  | S fuel' =>
      match skip_ws s with
      | EmptyString => None
      | String c s1 =>
          let n := code c in
          if (n =? 110)%nat then r ← expect "ull" s1; Some (PyNone, r)
          else if (n =? 116)%nat then r ← expect "rue" s1; Some (PyBool true, r)
          else if (n =? 102)%nat then r ← expect "alse" s1; Some (PyBool false, r)
          else if (n =? 34)%nat then
            '(str, r) ← scan_string s1; Some (PyStr str, r)
          else if (n =? 45)%nat then
            '(m, r) ← scan_nat s1; Some (PyInt (- Z.of_N m), r)
          else if is_digit c then
            '(m, r) ← scan_nat (String c s1); Some (PyInt (Z.of_N m), r)
          else if (n =? 91)%nat then
            match skip_ws s1 with
            | String c' s2 =>
                if (code c' =? 93)%nat then Some (PyList [], s2)
                else '(l, r) ← parse_items fuel' s1; Some (PyList l, r)
            | EmptyString => None
            end
          else if (n =? 123)%nat then
            match skip_ws s1 with
            | String c' s2 =>
                if (code c' =? 125)%nat then Some (PyDict [], s2)
                else
                  '(d, r) ← parse_members fuel' s1;
                  Some (PyDict (dict_of_pairs d), r)
            | EmptyString => None
            end
          else None
      end
  end
with parse_items (fuel : nat) (s : string) : option (list pyvalue * string) :=
  match fuel with
  | O => None
  | S fuel' =>
      '(v, r) ← parse_value fuel' s;
      match skip_ws r with
      | String c r1 =>
          if (code c =? 44)%nat then
            '(l, r2) ← parse_items fuel' r1; Some (v :: l, r2)
          else if (code c =? 93)%nat then Some ([v], r1)
          else None
      | EmptyString => None
      end
  end
with parse_members (fuel : nat) (s : string)
  : option (list (string * pyvalue) * string) :=
  match fuel with
  | O => None
  | S fuel' =>
      match skip_ws s with
      | String q s1 =>
          if (code q =? 34)%nat then
            '(k, r) ← scan_string s1;
            match skip_ws r with
            | String c r1 =>
                if (code c =? 58)%nat then
                  '(v, r2) ← parse_value fuel' r1;
                  match skip_ws r2 with
                  | String c' r3 =>
                      if (code c' =? 44)%nat then
                        '(d, r4) ← parse_members fuel' r3; Some ((k, v) :: d, r4)
                      else if (code c' =? 125)%nat then Some ([(k, v)], r3)
                      else None
                  | EmptyString => None
                  end
                else None
            | EmptyString => None
            end
          else None
      | EmptyString => None
      end
  end.

(** [json.loads(text)]; [None] stands for [JSONDecodeError].  After the
    value only white space may follow. *)
Definition loads (text : string) : option pyvalue :=
  '(v, rest) ← parse_value (S (String.length text)) text;
  if is_empty (skip_ws rest) then Some v else None.

(** *** Pretty printing *)

Fixpoint spaces (n : nat) : string :=
  match n with
  | O => EmptyString
  | S n' => String " " (spaces n')
  end.

(** A line break followed by the indentation of nesting [level]. *)
Definition newline_indent (level : nat) : string :=
  String (ascii_of_nat 10) (spaces (2 * level)).

Definition pretty_block (opening closing : string) (level : nat)
    (ts : list string) : string :=
  match ts with
  | [] => opening +:+ closing
  | _ =>
      opening +:+ newline_indent (S level)
      +:+ String.concat ("," +:+ newline_indent (S level)) ts
      +:+ newline_indent level +:+ closing
  end.

(** [json.dumps(v, indent=2)], for a value nested [level] deep. *)
Fixpoint dumps_indent (level : nat) (v : pyvalue) : option string :=
  match v with
  | PyNone => Some "null"
  | PyBool true => Some "true"
  | PyBool false => Some "false"
  | PyInt z => Some (dumps_int z)
  | PyStr s => Some (dumps_str s)
  | PyList l | PyTuple l =>
      ts ← mapM (dumps_indent (S level)) l;
      Some (pretty_block "[" "]" level ts)
  | PyDict d =>
      ts ← mapM (fun kv => t ← dumps_indent (S level) kv.2;
                           Some (member_text kv.1 t)) d;
      Some (pretty_block "{" "}" level ts)
  | PySet _ => None
  end.

End Json.


(** ** The [memories] table and SQLite *)

(** One row of [memories], without its primary key. *)
Record row : Type := Row {
  value_json : string;
  value_type : string;
  scope : string;
  owner : string;
  created : string;
  updated : string;
  access_count : Z;
  metadata_json : option string
}.

Abbreviation table := (gmap string row).

Inductive exn : Type :=
  | ValueError (msg : string)
  | TypeError
  | JSONDecodeError
  | SqliteError (cause : string).

Inductive res (A : Type) : Type :=
  | Ok (a : A)
  | Raise (e : exn).
Arguments Ok {A} a.
Arguments Raise {A} e.

(** What a call does besides returning: the statements sent to SQLite and
    the lines printed. *)
Inductive event : Type :=
  | SelectKey (k : string)
  | Upsert (k : string)
  | BumpAccess (k1 k2 : string)
  | DeleteKey (k : string)
  | SelectLike (pattern : string) (scope_filter : option string)
  | SelectAll (scope_filter owner_filter : option string)
  | Printed (line : string).

(** Whether SQLite carries out a write or raises [sqlite3.Error]. *)
Inductive disk_state : Type :=
  | DiskOk
  | DiskError (cause : string).

Record outcome (A : Type) : Type := Outcome {
  result : res A;
  db : table;
  trace : list event
}.
Arguments Outcome {A} result db trace.
Arguments result {A} o.
Arguments db {A} o.
Arguments trace {A} o.

Definition M (A : Type) : Type := table -> outcome A.

Global Instance M_ret : MRet M := fun A a t => Outcome (Ok a) t [].

Global Instance M_bind : MBind M := fun A B f m t =>
  let o := m t in
  match result o with
  | Ok a => let o' := f a (db o) in
            Outcome (result o') (db o') (trace o ++ trace o')
  | Raise e => Outcome (Raise e) (db o) (trace o)
  end.

Definition raise {A} (e : exn) : M A := fun t => Outcome (Raise e) t [].

(** [try: body except sqlite3.Error as e: handler(e)] *)
Definition except_sqlite {A} (body : M A) (handler : string -> M A) : M A :=
  fun t =>
    let o := body t in
    match result o with
    | Raise (SqliteError cause) =>
        let o' := handler cause (db o) in
        Outcome (result o') (db o') (trace o ++ trace o')
    | _ => o
    end.

Definition print (line : string) : M unit :=
  fun t => Outcome (Ok ()) t [Printed line].

Module Sql.
Import Text.

(** [s LIKE pattern] with SQLite's defaults: [%] stands for any run of
    characters, [_] for any one character, and an ASCII letter matches in
    either case. *)
Fixpoint like (pattern : string) : string -> bool :=
  match pattern with
  | EmptyString => fun s => is_empty s
  | String p pattern' =>
      if (code p =? 37)%nat then
        fix any_run (s : string) : bool :=
          like pattern' s
          || match s with
             | EmptyString => false
             | String _ s' => any_run s'
             end
      else
        fun s =>
          match s with
          | EmptyString => false
          | String c s' =>
              ((code p =? 95)%nat || Ascii.eqb (tolower p) (tolower c))
              && like pattern' s'
          end
  end.

(** [ORDER BY updated DESC]: text compares byte-wise. *)
Definition updated_desc (a b : string * row) : Prop :=
  String.le (updated b.2) (updated a.2).

Global Instance updated_desc_dec : RelDecision updated_desc :=
  fun a b => decide (String.le (updated b.2) (updated a.2)).

(** [SELECT ... FROM memories WHERE cond ORDER BY updated DESC].  SQL
    leaves the order of rows with equal [updated] open. *)
Definition select_where (cond : string -> row -> bool) (t : table)
  : list (string * row) :=
  merge_sort updated_desc (filter (fun kr => cond kr.1 kr.2 = true) (map_to_list t)).

(** [UPDATE memories SET ... WHERE cond] *)
Definition update_where (cond : string -> row -> bool) (f : row -> row)
    (t : table) : table :=
  map_imap (fun k r => Some (if cond k r then f r else r)) t.

Definition bump (r : row) : row :=
  Row (value_json r) (value_type r) (scope r) (owner r) (created r) (updated r)
      (access_count r + 1) (metadata_json r).

(** [SELECT value_json, value_type FROM memories WHERE key = ?] and
    [fetchone()] *)
Definition select_key (k : string) : M (option (string * string)) :=
  fun t =>
    Outcome (Ok (r ← t !! k; Some (value_json r, value_type r))) t [SelectKey k].

(** The row that [INSERT ... ON CONFLICT(key) DO UPDATE SET value_json,
    value_type, updated, metadata_json] leaves at the key: the columns not
    listed after [SET] keep the values of the row [old] in conflict; a
    fresh row takes the column default [access_count = 0]. *)
Definition upsert_row (old : option row)
    (vjson vtype sc own cre upd : string) (mjson : option string) : row :=
  match old with
  | None => Row vjson vtype sc own cre upd 0 mjson
  | Some r =>
      Row vjson vtype (scope r) (owner r) (created r) upd (access_count r) mjson
  end.

(** [cursor.execute(INSERT ...)] followed by [conn.commit()] *)
Definition upsert (disk : disk_state) (k : string)
    (vjson vtype sc own cre upd : string) (mjson : option string) : M unit :=
  fun t =>
    match disk with
    | DiskError cause => Outcome (Raise (SqliteError cause)) t [Upsert k]
    | DiskOk =>
        Outcome (Ok ())
                (<[k := upsert_row (t !! k) vjson vtype sc own cre upd mjson]> t)
                [Upsert k]
    end.

(** [UPDATE memories SET access_count = access_count + 1
     WHERE key = ? OR key = ?], then [commit()] *)
Definition bump_access (k1 k2 : string) : M unit :=
  fun t =>
    Outcome (Ok ())
      (update_where (fun k _ => String.eqb k k1 || String.eqb k k2) bump t)
      [BumpAccess k1 k2].

(** [DELETE FROM memories WHERE key = ?], [commit()], and [rowcount] *)
Definition delete_key (k : string) : M Z :=
  fun t =>
    Outcome (Ok (if t !! k is Some _ then 1 else 0)) (delete k t) [DeleteKey k].

Definition scope_is (f : option string) (r : row) : bool :=
  match f with
  | Some sc => String.eqb (scope r) sc
  | None => true
  end.

Definition owner_is (f : option string) (r : row) : bool :=
  match f with
  | Some ow => String.eqb (owner r) ow
  | None => true
  end.

(** [... WHERE (key LIKE ? OR value_json LIKE ?) [AND scope = ?]
     ORDER BY updated DESC] *)
Definition select_like (pattern : string) (sc : option string)
  : M (list (string * row)) :=
  fun t =>
    Outcome
      (Ok (select_where
             (fun k r => (like pattern k || like pattern (value_json r))
                         && scope_is sc r) t))
      t [SelectLike pattern sc].

(** [... WHERE 1=1 [AND scope = ?] [AND owner = ?] ORDER BY updated DESC] *)
Definition select_all (sc ow : option string) : M (list (string * row)) :=
  fun t =>
    Outcome (Ok (select_where (fun _ r => scope_is sc r && owner_is ow r) t))
            t [SelectAll sc ow].

(** [SELECT COUNT( * ) FROM memories] *)
Definition count_all : M Z :=
  fun t => Outcome (Ok (Z.of_nat (size t))) t [].

(** The rows of [SELECT col, COUNT( * ) FROM memories GROUP BY col], as the
    dict Python builds from them: each value of the column that occurs,
    with the number of rows carrying it. *)
Definition group_counts (col : row -> string) (t : table) : gmap string Z :=
  map_fold (fun _ r acc => <[col r := default 0 (acc !! col r) + 1]> acc) ∅ t.

Definition count_by (col : row -> string) : M (gmap string Z) :=
  fun t => Outcome (Ok (group_counts col t)) t [].

Definition access_total (t : table) : Z :=
  map_fold (fun _ r acc => access_count r + acc) 0 t.

(** [SELECT SUM(access_count) FROM memories]: NULL on an empty table. *)
Definition sum_access : M (option Z) :=
  fun t =>
    Outcome (Ok (if decide (t = ∅) then None else Some (access_total t))) t [].

End Sql.

(** ** The [Memory] dataclass *)

Module Memory.
Record t : Type := mk {
  key : string;
  value : pyvalue;
  scope : string;
  owner : string;
  created : string;
  updated : string;
  access_count : Z;
  metadata : pyvalue
}.

(** [to_dict]: [asdict(self)], the fields in their order. *)
Definition to_dict (m : t) : pyvalue :=
  PyDict [("key", PyStr (key m)); ("value", value m); ("scope", PyStr (scope m));
          ("owner", PyStr (owner m)); ("created", PyStr (created m));
          ("updated", PyStr (updated m)); ("access_count", PyInt (access_count m));
          ("metadata", metadata m)].
End Memory.

(** The dict that [get_stats] returns. *)
Module Stats.
Record t : Type := mk {
  total_memories : Z;
  by_scope : gmap string Z;
  by_owner : gmap string Z;
  total_accesses : Z
}.
End Stats.

(** ** The [MemoryBridge] class *)

Module MemoryBridge.
Import Text.

Record t : Type := mk { agent_name : string }.

(** [__init__]: the agent's name is upper-cased once, here. *)
Definition init (agent_name : string) : t := mk (upper agent_name).

Definition json_loads (text : string) : M pyvalue :=
  match Json.loads text with
  | Some v => mret v
  | None => raise JSONDecodeError
  end.

(** [f"{self.agent_name}:{key}"] *)
Definition prefixed (self : t) (key : string) : string :=
  agent_name self +:+ ":" +:+ key.

(** An optional string argument used as a condition: [if scope:]. *)
Definition given (o : option string) : option string :=
  match o with
  | Some s => if is_empty s then None else Some s
  | None => None
  end.

Definition store (self : t) (key : string) (value : pyvalue) (scope : string)
    (metadata : pyvalue) (now : string) (disk : disk_state) : M bool :=
  if is_empty key then raise (ValueError "Key must be a non-empty string")
  else if negb (bool_decide (scope ∈ ["agent"; "team"; "global"])) then
    raise (ValueError "Scope must be 'agent', 'team', or 'global'")
  else
    let key := if String.eqb scope "agent" then prefixed self key else key in
    match Json.dumps value with
    | None =>
        (* in the source the library's own message follows, after a colon *)
        raise (ValueError "Value must be JSON-serializable")
    | Some value_json =>
        let value_type := type_name value in
        metadata_json ←
          (if truthy metadata then
             match Json.dumps metadata with
             | Some text => mret (Some text)
             | None => raise TypeError
             end
           else mret None);
        except_sqlite
          (Sql.upsert disk key value_json value_type scope (agent_name self)
                      now now metadata_json;;
           mret true)
          (fun cause => print ("Database error: " +:+ cause);; mret false)
    end.

Definition get (self : t) (key : string) (scope : option string)
    (default : pyvalue) : M pyvalue :=
  let prefixed_key :=
    match scope with
    | None => prefixed self key
    | Some sc => if String.eqb sc "agent" then prefixed self key else key
    end in
  row ← Sql.select_key prefixed_key;
  row ← (match row, scope with
         | None, None => Sql.select_key key
         | _, _ => mret row
         end);
  match row with
  | Some (value_json, value_type) =>
      Sql.bump_access prefixed_key key;;
      json_loads value_json
  | None => mret default
  end.

(** The loop body shared by [search] and [list_all]. *)
Definition to_memory (kr : string * row) : M Memory.t :=
  let '(key, r) := kr in
  value ← json_loads (value_json r);
  metadata ← (match given (metadata_json r) with
              | Some text => json_loads text
              | None => mret PyNone
              end);
  mret (Memory.mk key value (scope r) (owner r) (created r) (updated r)
                  (access_count r) metadata).

Fixpoint for_each {A B} (f : A -> M B) (l : list A) : M (list B) :=
  match l with
  | [] => mret []
  | x :: l' => y ← f x; ys ← for_each f l'; mret (y :: ys)
  end.

Definition search (self : t) (query : string) (scope : option string)
  : M (list Memory.t) :=
  rows ← Sql.select_like ("%" +:+ query +:+ "%") (given scope);
  for_each to_memory rows.

Definition delete (self : t) (key : string) (scope : option string) : M bool :=
  let key :=
    match scope with
    | Some sc => if String.eqb sc "agent" then prefixed self key else key
    | None => key
    end in
  rowcount ← Sql.delete_key key;
  mret (0 <? rowcount).

Definition list_all (self : t) (scope owner : option string)
  : M (list Memory.t) :=
  rows ← Sql.select_all (given scope) (given owner);
  for_each to_memory rows.

(** The four queries are read-only aggregates; they leave no mark in the
    trace.  [or 0] turns the NULL of an empty table into 0. *)
Definition get_stats (self : t) : M Stats.t :=
  total ← Sql.count_all;
  by_scope ← Sql.count_by scope;
  by_owner ← Sql.count_by owner;
  sum ← Sql.sum_access;
  let total_accesses :=
    match sum with
    | Some n => if (n =? 0)%Z then 0 else n
    | None => 0
    end in
  mret (Stats.mk total by_scope by_owner total_accesses).

End MemoryBridge.

(** ** The command line *)

Module Cli.
Import Text.

(** What [parser.parse_args()] hands to [main]. *)
Record args : Type := Args {
  command : string;
  agent : string;
  key : option string;
  value : option string;
  scope : string;
  query : option string
}.

(** An optional argument that was given and is not empty: [if args.key]. *)
Definition present (o : option string) : option string :=
  match o with
  | Some s => if is_empty s then None else Some s
  | None => None
  end.

(** [str(n)] *)
Definition show (n : Z) : string := Json.dumps_int n.

Fixpoint print_each {A} (line : A -> string) (l : list A) : M unit :=
  match l with
  | [] => mret ()
  | x :: l' => print (line x);; print_each line l'
  end.

(** [main], from the parsed arguments on; the value is the exit status.
    [show_counts] is Python's [str] of a dict of counts, whose text follows
    the order in which SQLite returned the groups. *)
Definition main (show_counts : gmap string Z -> string) (a : args)
    (now : string) (disk : disk_state) : M Z :=
  let bridge := MemoryBridge.init (agent a) in
  if String.eqb (command a) "store" then
    match present (key a), present (value a) with
    | Some k, Some text =>
        v ← MemoryBridge.json_loads text;
        success ← MemoryBridge.store bridge k v (scope a) PyNone now disk;
        print ("[" +:+ (if success : bool then "OK" else "FAIL")
               +:+ "] Memory stored: " +:+ k);;
        mret 0
    | _, _ => print "ERROR: --key and --value required for store";; mret 1
    end
  else if String.eqb (command a) "get" then
    match present (key a) with
    | Some k =>
        v ← MemoryBridge.get bridge k (Some (scope a)) PyNone;
        match v with
        | PyNone => print ("Memory not found: " +:+ k);; mret 1
        | _ =>
            match Json.dumps_indent 0 v with
            | Some text => print text;; mret 0
            | None => raise TypeError
            end
        end
    | None => print "ERROR: --key required for get";; mret 1
    end
  else if String.eqb (command a) "search" then
    match present (query a) with
    | Some q =>
        results ← MemoryBridge.search bridge q (Some (scope a));
        print ("Found " +:+ show (Z.of_nat (length results)) +:+ " memories:");;
        print_each (fun mem => "  " +:+ Memory.key mem +:+ " (" +:+ Memory.scope mem
                               +:+ ") by " +:+ Memory.owner mem) results;;
        mret 0
    | None => print "ERROR: --query required for search";; mret 1
    end
  else if String.eqb (command a) "list" then
    memories ← MemoryBridge.list_all bridge (Some (scope a)) None;
    print ("Total memories: " +:+ show (Z.of_nat (length memories)));;
    print_each (fun mem => "  " +:+ Memory.key mem +:+ " (" +:+ Memory.scope mem
                           +:+ ") by " +:+ Memory.owner mem +:+ " - accessed "
                           +:+ show (Memory.access_count mem) +:+ " times")
               memories;;
    mret 0
  else if String.eqb (command a) "delete" then
    match present (key a) with
    | Some k =>
        success ← MemoryBridge.delete bridge k (Some (scope a));
        print ("[" +:+ (if success : bool then "OK" else "FAIL")
               +:+ "] Memory deleted: " +:+ k);;
        mret 0
    | None => print "ERROR: --key required for delete";; mret 1
    end
  else if String.eqb (command a) "stats" then
    stats ← MemoryBridge.get_stats bridge;
    print "MEMORY STATISTICS:";;
    print ("  Total memories: " +:+ show (Stats.total_memories stats));;
    print ("  Total accesses: " +:+ show (Stats.total_accesses stats));;
    print ("  By scope: " +:+ show_counts (Stats.by_scope stats));;
    print ("  By owner: " +:+ show_counts (Stats.by_owner stats));;
    mret 0
  else mret 0.

End Cli.

(** ** Vocabulary of the statements *)

Import MemoryBridge.

(** The value of [key] in [store] once the scope prefix has been applied. *)
Definition storage_key (self : MemoryBridge.t) (scope key : string) : string :=
  if String.eqb scope "agent" then prefixed self key else key.

(** The keys looked up with [SELECT ... WHERE key = ?], in order. *)
Definition probes (tr : list event) : list string :=
  omap (fun e => match e with SelectKey k => Some k | _ => None end) tr.

(** What [get] returns once its probes have resolved to [hit]. *)
Definition answer (hit : option row) (default : pyvalue) : res pyvalue :=
  match hit with
  | Some r =>
      match Json.loads (value_json r) with
      | Some v => Ok v
      | None => Raise JSONDecodeError
      end
  | None => Ok default
  end.

(** The text [store] puts in the column [metadata_json], when it gets that
    far: [json.dumps(metadata) if metadata else None]. *)
Definition metadata_column (metadata : pyvalue) : option string :=
  if truthy metadata then Json.dumps metadata else None.

Definition valid_scope (scope : string) : bool :=
  bool_decide (scope ∈ ["agent"; "team"; "global"]).

(** What the loop body of [search] and [list_all] makes of one row. *)
Definition memory_of (kr : string * row) : option Memory.t :=
  value ← Json.loads (value_json kr.2);
  metadata ← (match given (metadata_json kr.2) with
              | Some text => Json.loads text
              | None => Some PyNone
              end);
  Some (Memory.mk kr.1 value (scope kr.2) (owner kr.2) (created kr.2)
                  (updated kr.2) (access_count kr.2) metadata).

Definition decoded (rows : list (string * row)) : res (list Memory.t) :=
  match mapM memory_of rows with
  | Some ms => Ok ms
  | None => Raise JSONDecodeError
  end.


(** What a value looks like after a trip through JSON text: tuples have
    become lists. *)
Fixpoint jsonify (v : pyvalue) : pyvalue :=
  match v with
  | PyList l | PyTuple l => PyList (map jsonify l)
  | PyDict d => PyDict (Json.dict_of_pairs (map (fun kv => (kv.1, jsonify kv.2)) d))
  | _ => v
  end.

(** What may follow a value inside a document. *)
Definition follow_ok (rest : string) : Prop :=
  match rest with
  | EmptyString => True
  | String c _ => c = ","%char \/ c = "]"%char \/ c = "}"%char
  end.

Definition no_digit_ahead (rest : string) : Prop :=
  match rest with
  | EmptyString => True
  | String c _ => Json.is_digit c = false
  end.

(** A document starts with a character that is neither white space nor a
    closing bracket. *)
Definition head_ok (t : string) : Prop :=
  match t with
  | EmptyString => False
  | String c _ => Json.is_ws c = false /\ (Text.code c =? 93)%nat = false
                  /\ (Text.code c =? 125)%nat = false
  end.

(** The decoder reads back what [dumps] wrote for [v], whatever follows. *)
Definition parses (v : pyvalue) : Prop :=
  forall t, Json.dumps v = Some t ->
  forall fuel rest, (String.length t <= fuel)%nat -> follow_ok rest ->
  Json.parse_value fuel (t +:+ rest) = Some (jsonify v, rest).

(** *** Histories *)






(** The number of rows that satisfy [cond]. *)
Definition count_rows (cond : string -> row -> bool) (t : table) : Z :=
  Z.of_nat (size (filter (fun kr => cond kr.1 kr.2 = true) t)).


(** *** Scenarios *)

Definition atlas : MemoryBridge.t := init "Atlas".
Definition forge : MemoryBridge.t := init "Forge".

(** The table after ATLAS has stored ["status"] for the team. *)
Definition team_status : table :=
  db (store atlas "status" (PyStr "ok") "team" PyNone "2026-01-18T10:00:00" DiskOk ∅).


(** The table after ATLAS has stored ["k"] once for itself and once for the
    team. *)
Definition two_scopes : table :=
  db (store atlas "k" (PyInt 2) "team" PyNone "2026-01-18T10:00:01" DiskOk
        (db (store atlas "k" (PyInt 1) "agent" PyNone "2026-01-18T10:00:00" DiskOk ∅))).

(** The table after ATLAS has stored ["k"] for itself only. *)
Definition own_entry : table :=
  db (store atlas "k" (PyStr "old") "agent" PyNone "2026-01-18T09:00:00" DiskOk ∅).

(** ** [get]: resolution order *)

Lemma get_unfold self key scope default t :
  let pk := match scope with
            | None => prefixed self key
            | Some sc => if String.eqb sc "agent" then prefixed self key else key
            end in
  let hit := match t !! pk, scope with
             | None, None => t !! key
             | o, _ => o
             end in
  get self key scope default t =
  Outcome (answer hit default)
          (if hit is Some _ then
             Sql.update_where (fun k _ => String.eqb k pk || String.eqb k key) Sql.bump t
           else t)
          (SelectKey pk ::
           (if (t !! pk, scope) is (None, None) then [SelectKey key] else []) ++
           (if hit is Some _ then [BumpAccess pk key] else [])).
Proof.
  intros pk hit. subst hit. unfold get. fold pk.
  unfold mbind, M_bind, Sql.select_key. simpl.
  destruct (t !! pk) as [r|] eqn:Hpk; simpl.
  - destruct scope as [sc|]; simpl;
      unfold answer, json_loads; destruct (Json.loads (value_json r)); reflexivity.
  - destruct scope as [sc|]; simpl; [reflexivity|].
    destruct (t !! key) as [r|] eqn:Hk; simpl; [|reflexivity].
    unfold answer, json_loads; destruct (Json.loads (value_json r)); reflexivity.
Qed.


(** ** [store]: what a call writes *)

Lemma store_unfold self key value scope metadata now disk t :
  store self key value scope metadata now disk t =
  if Text.is_empty key then
    Outcome (Raise (ValueError "Key must be a non-empty string")) t []
  else if negb (valid_scope scope) then
    Outcome (Raise (ValueError "Scope must be 'agent', 'team', or 'global'")) t []
  else
    match Json.dumps value with
    | None => Outcome (Raise (ValueError "Value must be JSON-serializable")) t []
    | Some vjson =>
        if truthy metadata && negb (bool_decide (is_Some (Json.dumps metadata)))
        then Outcome (Raise TypeError) t []
        else
          let sk := storage_key self scope key in
          match disk with
          | DiskOk =>
              Outcome (Ok true)
                (<[sk := Sql.upsert_row (t !! sk) vjson (type_name value) scope
                           (agent_name self) now now (metadata_column metadata)]> t)
                [Upsert sk]
          | DiskError cause =>
              Outcome (Ok false) t [Upsert sk; Printed ("Database error: " +:+ cause)]
          end
    end.
Proof.
  unfold store, valid_scope, metadata_column, storage_key.
  destruct (Text.is_empty key); [reflexivity|].
  destruct (negb _); [reflexivity|].
  destruct (Json.dumps value) as [vjson|]; [|reflexivity].
  destruct (truthy metadata); simpl.
  - destruct (Json.dumps metadata) as [mjson|]; simpl; [|reflexivity].
    destruct disk; reflexivity.
  - destruct disk; reflexivity.
Qed.

(** A call that returns [True] passed every check and wrote one row. *)
Lemma store_true self key value scope metadata now disk t :
  result (store self key value scope metadata now disk t) = Ok true ->
  exists vjson,
    Json.dumps value = Some vjson
    /\ disk = DiskOk
    /\ db (store self key value scope metadata now disk t)
       = <[storage_key self scope key :=
             Sql.upsert_row (t !! storage_key self scope key) vjson
               (type_name value) scope (agent_name self) now now
               (metadata_column metadata)]> t.
Proof.
  rewrite store_unfold.
  destruct (Text.is_empty key); [discriminate|].
  destruct (negb _); [discriminate|].
  destruct (Json.dumps value) as [vjson|]; [|discriminate].
  destruct (_ && _); [discriminate|].
  destruct disk; simpl; [|discriminate].
  intros _. exists vjson. auto.
Qed.

(** C3, as stated, fails: FORGE overwrites the team entry ["status"] that
    ATLAS created, and the entry's owner is still ATLAS. *)
Lemma owner_after_overwrite_counterexample :
  let o := store forge "status" (PyStr "busy") "team" PyNone
                 "2026-01-18T11:00:00" DiskOk team_status in
  is_Some (team_status !! "status")
  /\ result o = Ok true
  /\ value_json <$> db o !! "status" = Json.dumps (PyStr "busy")
  /\ owner <$> db o !! "status" = Some "ATLAS"
  /\ owner <$> db o !! "status" <> Some (agent_name forge).
Proof.
  vm_compute. repeat split; try reflexivity; try discriminate. eexists; reflexivity.
Qed.

(** C3, amended. A [store] that overwrites an existing entry leaves its
    owner as it was; a [store] that creates the entry sets owner to the
    calling agent's upper-cased name.  So owner records the agent that
    created the entry. *)
Theorem store_owner_is_creator (self : MemoryBridge.t) (key : string)
    (value : pyvalue) (scope : string) (metadata : pyvalue) (now : string)
    (disk : disk_state) (t : table) :
  let sk := storage_key self scope key in
  let o := store self key value scope metadata now disk t in
  result o = Ok true ->
  owner <$> db o !! sk
  = Some (match t !! sk with Some r => owner r | None => agent_name self end).
Proof.
  intros sk o Hok. subst o.
  destruct (store_true _ _ _ _ _ _ _ _ Hok) as (vjson & _ & _ & ->).
  fold sk. rewrite lookup_insert_eq. simpl.
  destruct (t !! sk); reflexivity.
Qed.

Lemma store_owner_is_creator_witness :
  owner <$> db (store forge "status" (PyStr "busy") "team" PyNone
                      "2026-01-18T11:00:00" DiskOk team_status) !! "status"
  = Some "ATLAS".
Proof.
  exact (store_owner_is_creator forge "status" (PyStr "busy") "team" PyNone
           "2026-01-18T11:00:00" DiskOk team_status eq_refl).
Defined.

(** Every other key is left alone, whatever the call does. *)
Lemma store_frame self key value scope metadata now disk t k' :
  k' <> storage_key self scope key ->
  db (store self key value scope metadata now disk t) !! k' = t !! k'.
Proof.
  intros Hne. rewrite store_unfold.
  destruct (Text.is_empty key); [reflexivity|].
  destruct (negb _); [reflexivity|].
  destruct (Json.dumps value); [|reflexivity].
  destruct (_ && _); [reflexivity|].
  destruct disk; simpl; [|reflexivity].
  by rewrite lookup_insert_ne.
Qed.

Lemma length_append (s1 s2 : string) :
  String.length (s1 +:+ s2) = (String.length s1 + String.length s2)%nat.
Proof. induction s1 as [|c s1 IH]; simpl; [reflexivity|]. by rewrite IH. Qed.

Lemma prefixed_ne self key : prefixed self key <> key.
Proof.
  unfold prefixed. intros H. apply (f_equal String.length) in H.
  rewrite !length_append in H. simpl in H. lia.
Qed.

(** ** Scopes and storage keys *)



(** ** Overwriting an entry *)



(** ** [delete] *)

(** C8. [delete] prefixes the key exactly when the scope is "agent" and sends
    one DELETE for that key, with no second probe; the table loses that key
    and nothing else; the call returns whether the key was there, and on a
    missing key it returns [False], raises nothing and leaves the table as it
    was. *)
Theorem delete_removes_derived_key (self : MemoryBridge.t) (key : string)
    (scope : option string) (t : table) :
  let dk := match scope with
            | Some sc => if bool_decide (sc = "agent") then prefixed self key else key
            | None => key
            end in
  let o := MemoryBridge.delete self key scope t in
  trace o = [DeleteKey dk]
  /\ db o = base.delete dk t
  /\ (forall k', k' <> dk -> db o !! k' = t !! k')
  /\ db o !! dk = None
  /\ result o = Ok (bool_decide (is_Some (t !! dk)))
  /\ (t !! dk = None -> result o = Ok false /\ db o = t).
Proof.
  intros dk o.
  assert (Hdk : dk = match scope with
                     | Some sc => if String.eqb sc "agent" then prefixed self key else key
                     | None => key
                     end).
  { subst dk. destruct scope as [sc|]; [|reflexivity].
    destruct (String.eqb_spec sc "agent"); case_bool_decide; congruence. }
  subst o. unfold MemoryBridge.delete. rewrite <- Hdk.
  unfold mbind, M_bind, Sql.delete_key. simpl.
  split; [reflexivity|]. split; [reflexivity|].
  split; [intros k' Hne; by rewrite lookup_delete_ne|].
  split; [apply lookup_delete_eq|].
  split.
  - destruct (t !! dk) eqn:E; reflexivity.
  - intros Hnone. rewrite Hnone. split; [reflexivity|]. by apply delete_id.
Qed.

Lemma delete_removes_derived_key_witness :
  result (MemoryBridge.delete atlas "status" (Some "agent") team_status) = Ok false
  /\ db (MemoryBridge.delete atlas "status" (Some "agent") team_status) = team_status.
Proof.
  exact (proj2 (proj2 (proj2 (proj2 (proj2
    (delete_removes_derived_key atlas "status" (Some "agent") team_status)))))
    eq_refl).
Defined.

(** ** A failing write *)




(** ** Queries *)

Global Instance updated_desc_total : Total Sql.updated_desc.
Proof. intros a b. unfold Sql.updated_desc. apply String.le_total. Qed.

Lemma select_where_spec cond t :
  let rows := Sql.select_where cond t in
  Sorted Sql.updated_desc rows
  /\ NoDup (rows.*1)
  /\ (forall k r, (k, r) ∈ rows <-> t !! k = Some r /\ cond k r = true).
Proof.
  intros rows. subst rows. unfold Sql.select_where.
  split; [apply Sorted_merge_sort; apply _|]. split.
  - rewrite merge_sort_Permutation.
    eapply sublist_NoDup; [apply (NoDup_fst_map_to_list t)|].
    apply fmap_sublist, sublist_filter.
  - intros k r. rewrite merge_sort_Permutation, list_elem_of_filter.
    rewrite elem_of_map_to_list. simpl. tauto.
Qed.

Lemma to_memory_unfold kr t :
  to_memory kr t
  = Outcome (match memory_of kr with Some m => Ok m | None => Raise JSONDecodeError end)
            t [].
Proof.
  destruct kr as [k r]. unfold to_memory, memory_of, json_loads. simpl.
  unfold mbind at 1, M_bind at 1.
  destruct (Json.loads (value_json r)) as [v|]; simpl; [|reflexivity].
  unfold mbind at 1, M_bind at 1.
  destruct (given (metadata_json r)) as [text|]; simpl; [|reflexivity].
  destruct (Json.loads text); reflexivity.
Qed.

Lemma bind_unfold {A B} (m : M A) (f : A -> M B) (t : table) :
  (m ≫= f) t
  = match result (m t) with
    | Ok a =>
        Outcome (result (f a (db (m t)))) (db (f a (db (m t))))
                (trace (m t) ++ trace (f a (db (m t))))
    | Raise e => Outcome (Raise e) (db (m t)) (trace (m t))
    end.
Proof. reflexivity. Qed.

Lemma for_each_to_memory rows t :
  for_each to_memory rows t = Outcome (decoded rows) t [].
Proof.
  unfold decoded. induction rows as [|kr rows IH]; [reflexivity|].
  cbn [for_each]. rewrite bind_unfold, to_memory_unfold. cbn [result db trace].
  destruct (memory_of kr) as [m|] eqn:Hm.
  - rewrite bind_unfold, IH. cbn [result db trace mapM]. rewrite Hm.
    destruct (mapM memory_of rows); reflexivity.
  - cbn [mapM]. rewrite Hm. reflexivity.
Qed.

Lemma search_unfold self query scope t :
  let pattern := "%" +:+ query +:+ "%" in
  search self query scope t
  = Outcome
      (decoded (Sql.select_where
                  (fun k r => (Sql.like pattern k || Sql.like pattern (value_json r))
                              && Sql.scope_is (given scope) r) t))
      t [SelectLike pattern (given scope)].
Proof.
  intros pattern. unfold search. fold pattern.
  unfold mbind, M_bind, Sql.select_like. simpl.
  rewrite for_each_to_memory. reflexivity.
Qed.

Lemma list_all_unfold self scope owner t :
  list_all self scope owner t
  = Outcome
      (decoded (Sql.select_where
                  (fun _ r => Sql.scope_is (given scope) r
                              && Sql.owner_is (given owner) r) t))
      t [SelectAll (given scope) (given owner)].
Proof.
  unfold list_all. unfold mbind, M_bind, Sql.select_all. simpl.
  rewrite for_each_to_memory. reflexivity.
Qed.

(** ** [LIKE] and substrings *)

Lemma like_percent pattern s :
  Sql.like (String "%" pattern) s
  = Sql.like pattern s
    || match s with
       | EmptyString => false
       | String _ s' => Sql.like (String "%" pattern) s'
       end.
Proof. destruct s; reflexivity. Qed.

Lemma like_percent_iff pattern s :
  Sql.like (String "%" pattern) s = true
  <-> exists pre post, s = pre +:+ post /\ Sql.like pattern post = true.
Proof.
  induction s as [|c s IH]; rewrite like_percent, orb_true_iff.
  - split.
    + intros [H|H]; [|discriminate]. by exists "", "".
    + intros (pre & post & Heq & H). left.
      destruct pre; [|discriminate]. simpl in Heq. by subst post.
  - rewrite IH. split.
    + intros [H|(pre & post & -> & H)].
      * by exists "", (String c s).
      * by exists (String c pre), post.
    + intros (pre & post & Heq & H). destruct pre as [|c' pre]; simpl in Heq.
      * left. by subst post.
      * right. injection Heq as -> ->. by exists pre, post.
Qed.

Lemma append_empty_r (s : string) : s +:+ "" = s.
Proof. induction s as [|c s IH]; simpl; [reflexivity|]. by rewrite IH. Qed.

Lemma like_percent_only s : Sql.like "%" s = true.
Proof. apply like_percent_iff. exists s, "". by rewrite append_empty_r. Qed.

Lemma append_assoc (s1 s2 s3 : string) :
  (s1 +:+ s2) +:+ s3 = s1 +:+ s2 +:+ s3.
Proof. induction s1 as [|c s1 IH]; simpl; [reflexivity|]. by rewrite IH. Qed.



(** ** [search] *)




(** ** Access counting *)

(** On a hit, [get] adds one to the count of every row whose key is
    [prefixed_key] or [key]; on a miss it changes nothing. *)
Lemma get_access_counts self key scope default t k' :
  let pk := match scope with
            | None => prefixed self key
            | Some sc => if String.eqb sc "agent" then prefixed self key else key
            end in
  let hit := match t !! pk, scope with
             | None, None => t !! key
             | o, _ => o
             end in
  db (get self key scope default t) !! k'
  = if hit is Some _ then
      (if String.eqb k' pk || String.eqb k' key then Sql.bump <$> t !! k'
       else t !! k')
    else t !! k'.
Proof.
  intros pk hit. rewrite get_unfold. fold pk. fold hit. cbn [db].
  destruct hit; [|reflexivity].
  unfold Sql.update_where. rewrite map_lookup_imap.
  destruct (t !! k') as [row'|]; simpl; by destruct (_ || _).
Qed.

(** C2 does not hold of the code. With entries at both ["ATLAS:k"] and
    ["k"], ATLAS's [get("k")] resolves at its first probe to ["ATLAS:k"] and
    returns that value, yet the count of the entry ["k"], which it never
    read, goes up by one as well; the same happens with scope "agent". *)
Theorem get_increments_both_keys :
  let o := get atlas "k" None PyNone two_scopes in
  let o' := get atlas "k" (Some "agent") PyNone two_scopes in
  access_count <$> two_scopes !! "ATLAS:k" = Some 0
  /\ access_count <$> two_scopes !! "k" = Some 0
  /\ probes (trace o) = ["ATLAS:k"]
  /\ result o = Ok (PyInt 1)
  /\ access_count <$> db o !! "ATLAS:k" = Some 1
  /\ access_count <$> db o !! "k" = Some 1
  /\ probes (trace o') = ["ATLAS:k"]
  /\ result o' = Ok (PyInt 1)
  /\ access_count <$> db o' !! "k" = Some 1.
Proof. vm_compute. repeat split; reflexivity. Qed.

(** [search] and [list_all] leave every row, and so every count, as it was. *)
Lemma browsing_changes_nothing self query scope owner t :
  db (search self query scope t) = t /\ db (list_all self scope owner t) = t.
Proof. by rewrite search_unfold, list_all_unfold. Qed.

(** ** [json.loads] after [json.dumps] *)

Lemma pyvalue_ind (P : pyvalue -> Prop) :
  P PyNone -> (forall b, P (PyBool b)) -> (forall z, P (PyInt z)) ->
  (forall s, P (PyStr s)) ->
  (forall l, Forall P l -> P (PyList l)) ->
  (forall l, Forall P l -> P (PyTuple l)) ->
  (forall d, Forall (fun kv => P kv.2) d -> P (PyDict d)) ->
  (forall l, P (PySet l)) ->
  forall v, P v.
Proof.
  intros Hnone Hbool Hint Hstr Hlist Htuple Hdict Hset.
  fix IH 1. intros [ |b|z|s|l|l|d|l].
  - exact Hnone.
  - apply Hbool.
  - apply Hint.
  - apply Hstr.
  - apply Hlist. induction l as [|v l IHl]; constructor; [apply IH|exact IHl].
  - apply Htuple. induction l as [|v l IHl]; constructor; [apply IH|exact IHl].
  - apply Hdict. induction d as [|[k v] d IHd]; constructor; [apply IH|exact IHd].
  - apply Hset.
Qed.

Section JsonRoundTrip.
Import Json Text.

Lemma scan_escape_char c rest :
  scan_string (escape_char c +:+ rest)
  = '(body, r) ← scan_string rest; Some (String c body, r).
Proof. destruct c as [[] [] [] [] [] [] [] []]; reflexivity. Qed.

Lemma scan_escape s rest :
  scan_string (escape s +:+ String dquote rest) = Some (s, rest).
Proof.
  induction s as [|c s IH]; [reflexivity|].
  cbn [escape]. rewrite append_assoc, scan_escape_char, IH. reflexivity.
Qed.

Lemma scan_dumps_str s rest :
  dumps_str s +:+ rest = String dquote (escape s +:+ String dquote rest).
Proof. unfold dumps_str. simpl. by rewrite append_assoc. Qed.

Lemma span_digits_uint d rest :
  no_digit_ahead rest ->
  span_digits (NilEmpty.string_of_uint d +:+ rest)
  = (NilEmpty.string_of_uint d, rest).
Proof.
  intros Hrest. induction d; simpl; try (rewrite IHd; reflexivity).
  destruct rest as [|c rest]; [reflexivity|]. simpl in *. by rewrite Hrest.
Qed.

Lemma to_uint_no_leading_zero p d : Pos.to_uint p <> D0 d.
Proof.
  intros E.
  pose proof (DecimalPos.Unsigned.to_of (Pos.to_uint p)) as Hnorm.
  rewrite DecimalPos.Unsigned.of_to in Hnorm. simpl in Hnorm.
  rewrite E, DecimalFacts.unorm_D0 in Hnorm.
  destruct (nzhead d) eqn:Hd;
    [ unfold unorm in Hnorm; rewrite Hd in Hnorm;
      apply (DecimalPos.Unsigned.to_uint_nonzero p); rewrite E; exact Hnorm
    | pose proof (DecimalFacts.nb_digits_nzhead d) as Hlen;
      rewrite <- (DecimalFacts.unorm_nzhead d) in Hlen by (rewrite Hd; discriminate);
      rewrite <- Hnorm in Hlen; simpl in Hlen; lia .. ].
Qed.

Lemma follow_no_digit rest : follow_ok rest -> no_digit_ahead rest.
Proof. destruct rest as [|c rest]; [done|]. by intros [->|[->| ->]]. Qed.

Lemma follow_skip_ws rest : follow_ok rest -> skip_ws rest = rest.
Proof. destruct rest as [|c rest]; [done|]. by intros [->|[->| ->]]. Qed.

Lemma scan_nat_dumps n rest :
  follow_ok rest -> scan_nat (dumps_nat n +:+ rest) = Some (n, rest).
Proof.
  intros Hrest. unfold scan_nat, dumps_nat.
  assert (Hstr : NilZero.string_of_uint (N.to_uint n)
                 = NilEmpty.string_of_uint (N.to_uint n)).
  { destruct n as [|p]; [reflexivity|]. simpl.
    pose proof (DecimalPos.Unsigned.to_uint_nonnil p).
    by destruct (Pos.to_uint p). }
  rewrite Hstr, span_digits_uint by by apply follow_no_digit.
  rewrite <- Hstr.
  assert (Hparse : NilZero.uint_of_string (NilZero.string_of_uint (N.to_uint n))
                   = Some (N.to_uint n)).
  { apply NilZero.usu. destruct n as [|p]; [discriminate|].
    apply DecimalPos.Unsigned.to_uint_nonnil. }
  assert (Hgo : (u ← NilZero.uint_of_string (NilZero.string_of_uint (N.to_uint n));
                 Some (N.of_uint u, rest)) = Some (n, rest)).
  { rewrite Hparse. simpl. by rewrite DecimalN.Unsigned.of_to. }
  assert (Htail : match rest with
                  | String c _ =>
                      (code c =? 46)%nat || (code c =? 101)%nat || (code c =? 69)%nat
                  | EmptyString => false
                  end = false).
  { destruct rest as [|c rest]; [done|]. by destruct Hrest as [->|[->| ->]]. }
  destruct (NilZero.string_of_uint (N.to_uint n)) as [|d ds] eqn:Hds.
  { discriminate Hparse. }
  assert (Hzero : (code d =? 48)%nat && negb (is_empty ds) = false).
  { clear Hds. destruct n as [|p]; [by injection Hstr as -> ->|].
    simpl in Hstr.
    pose proof (to_uint_no_leading_zero p) as Hnz.
    destruct (Pos.to_uint p) as [|u|u|u|u|u|u|u|u|u|u];
      try discriminate Hstr; try (by injection Hstr as -> _).
    by destruct (Hnz u). }
  rewrite Hzero.
  destruct rest as [|c rest]; [exact Hgo|]. rewrite Htail. exact Hgo.
Qed.

Lemma parse_value_S fuel s :
  parse_value (S fuel) s
  = match skip_ws s with
    | EmptyString => None
    | String c s1 =>
        let n := code c in
        if (n =? 110)%nat then r ← expect "ull" s1; Some (PyNone, r)
        else if (n =? 116)%nat then r ← expect "rue" s1; Some (PyBool true, r)
        else if (n =? 102)%nat then r ← expect "alse" s1; Some (PyBool false, r)
        else if (n =? 34)%nat then
          '(str, r) ← scan_string s1; Some (PyStr str, r)
        else if (n =? 45)%nat then
          '(m, r) ← scan_nat s1; Some (PyInt (- Z.of_N m), r)
        else if is_digit c then
          '(m, r) ← scan_nat (String c s1); Some (PyInt (Z.of_N m), r)
        else if (n =? 91)%nat then
          match skip_ws s1 with
          | String c' s2 =>
              if (code c' =? 93)%nat then Some (PyList [], s2)
              else '(l, r) ← parse_items fuel s1; Some (PyList l, r)
          | EmptyString => None
          end
        else if (n =? 123)%nat then
          match skip_ws s1 with
          | String c' s2 =>
              if (code c' =? 125)%nat then Some (PyDict [], s2)
              else
                '(d, r) ← parse_members fuel s1;
                Some (PyDict (dict_of_pairs d), r)
          | EmptyString => None
          end
        else None
    end.
Proof. reflexivity. Qed.

Lemma parse_items_S fuel s :
  parse_items (S fuel) s
  = '(v, r) ← parse_value fuel s;
    match skip_ws r with
    | String c r1 =>
        if (code c =? 44)%nat then
          '(l, r2) ← parse_items fuel r1; Some (v :: l, r2)
        else if (code c =? 93)%nat then Some ([v], r1)
        else None
    | EmptyString => None
    end.
Proof. reflexivity. Qed.

Lemma parse_members_S fuel s :
  parse_members (S fuel) s
  = match skip_ws s with
    | String q s1 =>
        if (code q =? 34)%nat then
          '(k, r) ← scan_string s1;
          match skip_ws r with
          | String c r1 =>
              if (code c =? 58)%nat then
                '(v, r2) ← parse_value fuel r1;
                match skip_ws r2 with
                | String c' r3 =>
                    if (code c' =? 44)%nat then
                      '(d, r4) ← parse_members fuel r3; Some ((k, v) :: d, r4)
                    else if (code c' =? 125)%nat then Some ([(k, v)], r3)
                    else None
                | EmptyString => None
                end
              else None
          | EmptyString => None
          end
        else None
    | EmptyString => None
    end.
Proof. reflexivity. Qed.

Lemma parse_value_space fuel s :
  parse_value fuel (String " " s) = parse_value fuel s.
Proof. destruct fuel; [reflexivity|]. by rewrite !parse_value_S. Qed.

Lemma parse_items_space fuel s :
  parse_items fuel (String " " s) = parse_items fuel s.
Proof.
  destruct fuel; [reflexivity|]. by rewrite !parse_items_S, parse_value_space.
Qed.

Lemma parse_members_space fuel s :
  parse_members fuel (String " " s) = parse_members fuel s.
Proof. destruct fuel; [reflexivity|]. by rewrite !parse_members_S. Qed.

Lemma parse_value_digit fuel c s :
  is_digit c = true ->
  parse_value (S fuel) (String c s)
  = '(m, r) ← scan_nat (String c s); Some (PyInt (Z.of_N m), r).
Proof.
  destruct c as [[] [] [] [] [] [] [] []]; intros H;
    try discriminate H; reflexivity.
Qed.

Lemma dumps_nat_head n :
  exists c s, dumps_nat n = String c s /\ is_digit c = true.
Proof.
  unfold dumps_nat. destruct n as [|p]; [by exists "0"%char, ""|].
  simpl. pose proof (DecimalPos.Unsigned.to_uint_nonnil p) as Hnn.
  destruct (Pos.to_uint p); [done|..]; simpl; eauto.
Qed.

Lemma parse_dumps_int z fuel rest :
  follow_ok rest ->
  parse_value (S fuel) (dumps_int z +:+ rest) = Some (PyInt z, rest).
Proof.
  intros Hrest. destruct z as [|p|p]; unfold dumps_int.
  - change "0" with (dumps_nat 0).
    destruct (dumps_nat_head 0) as (c & s & Hc & Hdigit).
    rewrite Hc. simpl String.append. rewrite parse_value_digit by done.
    change (String c (s +:+ rest)) with (String c s +:+ rest).
    rewrite <- Hc, scan_nat_dumps by done. reflexivity.
  - destruct (dumps_nat_head (N.pos p)) as (c & s & Hc & Hdigit).
    rewrite Hc. simpl String.append. rewrite parse_value_digit by done.
    change (String c (s +:+ rest)) with (String c s +:+ rest).
    rewrite <- Hc, scan_nat_dumps by done. reflexivity.
  - simpl String.append. rewrite parse_value_S. simpl skip_ws. cbn iota beta.
    change (code "-" =? 110)%nat with false.
    change (code "-" =? 116)%nat with false.
    change (code "-" =? 102)%nat with false.
    change (code "-" =? 34)%nat with false.
    change (code "-" =? 45)%nat with true. cbn iota.
    rewrite scan_nat_dumps by done. reflexivity.
Qed.

Lemma dumps_list_eq l :
  dumps (PyList l)
  = ts ← mapM dumps l; Some ("[" +:+ String.concat ", " ts +:+ "]").
Proof. reflexivity. Qed.

Lemma dumps_tuple_eq l :
  dumps (PyTuple l)
  = ts ← mapM dumps l; Some ("[" +:+ String.concat ", " ts +:+ "]").
Proof. reflexivity. Qed.

Lemma dumps_dict_eq d :
  dumps (PyDict d)
  = ts ← mapM (fun kv => t ← dumps kv.2; Some (member_text kv.1 t)) d;
    Some ("{" +:+ String.concat ", " ts +:+ "}").
Proof. reflexivity. Qed.

Lemma dumps_head v t : dumps v = Some t -> head_ok t.
Proof.
  destruct v as [ |[]|z|s|l|l|d|l].
  - by intros [= <-].
  - by intros [= <-].
  - by intros [= <-].
  - intros [= <-]. destruct z as [|p|p]; [done| |done].
    destruct (dumps_nat_head (N.pos p)) as (c & s & Hc & Hdigit).
    unfold dumps_int. rewrite Hc. clear Hc.
    destruct c as [[] [] [] [] [] [] [] []]; try discriminate Hdigit; done.
  - by intros [= <-].
  - rewrite dumps_list_eq. destruct (mapM dumps l); by intros [= <-].
  - rewrite dumps_tuple_eq. destruct (mapM dumps l); by intros [= <-].
  - rewrite dumps_dict_eq. destruct (mapM _ d); by intros [= <-].
  - discriminate.
Qed.

Lemma skip_ws_head t rest :
  head_ok t ->
  exists c s, skip_ws (t +:+ rest) = String c s /\ t +:+ rest = String c s
              /\ (code c =? 93)%nat = false /\ (code c =? 125)%nat = false.
Proof.
  destruct t as [|c t]; [done|]. intros (Hws & H1 & H2).
  exists c, (t +:+ rest). simpl. by rewrite Hws.
Qed.

Lemma length_concat_head t ts :
  (String.length t <= String.length (String.concat ", " (t :: ts)))%nat.
Proof.
  destruct ts; simpl; [lia|]. rewrite length_append. lia.
Qed.

Lemma concat_cons t t' ts :
  String.concat ", " (t :: t' :: ts)
  = t +:+ ", " +:+ String.concat ", " (t' :: ts).
Proof. reflexivity. Qed.

Lemma parse_items_dumps l ts :
  Forall2 (fun v t => dumps v = Some t) l ts -> Forall parses l -> l <> [] ->
  forall fuel rest,
    (String.length (String.concat ", " ts) < fuel)%nat ->
    parse_items fuel (String.concat ", " ts +:+ String "]" rest)
    = Some (map jsonify l, rest).
Proof.
  induction 1 as [|v t l ts Hv Hrest IH]; [done|].
  intros Hall _ fuel rest Hfuel.
  apply Forall_cons in Hall as [Hp Hall].
  destruct fuel as [|fuel]; [lia|]. rewrite parse_items_S.
  pose proof (length_concat_head t ts) as Hlen.
  destruct Hrest as [|v' t' l' ts' Hv' Hrest'].
  - cbn [String.concat].
    rewrite (Hp t Hv fuel (String "]" rest)) by (cbn in *; (lia || auto)).
    reflexivity.
  - rewrite concat_cons in Hfuel |- *. rewrite !length_append in Hfuel.
    rewrite !append_assoc.
    rewrite (Hp t Hv fuel) by (cbn; (lia || auto)).
    cbn [mbind option_bind]. simpl skip_ws. cbn iota beta.
    change (code "," =? 44)%nat with true. cbn iota.
    rewrite parse_items_space.
    rewrite IH; [reflexivity|exact Hall|discriminate|].
    cbn [String.length] in Hfuel. lia.
Qed.

Lemma member_text_app k t rest :
  member_text k t +:+ rest
  = String dquote (escape k +:+ String dquote (String ":" (String " " (t +:+ rest)))).
Proof.
  unfold member_text, dumps_str. simpl. by rewrite !append_assoc.
Qed.

Lemma length_member_text k t :
  (String.length t <= String.length (member_text k t))%nat.
Proof. unfold member_text. rewrite !length_append. lia. Qed.

Lemma parse_member k v t fuel rest :
  parses v -> dumps v = Some t -> (String.length t <= fuel)%nat ->
  follow_ok rest ->
  parse_members (S fuel) (member_text k t +:+ rest)
  = match skip_ws rest with
    | String c' r3 =>
        if (code c' =? 44)%nat then
          '(d, r4) ← parse_members fuel r3; Some ((k, jsonify v) :: d, r4)
        else if (code c' =? 125)%nat then Some ([(k, jsonify v)], r3)
        else None
    | EmptyString => None
    end.
Proof.
  intros Hp Hv Hfuel Hrest.
  rewrite parse_members_S, member_text_app. simpl skip_ws. cbn iota beta.
  change (code dquote =? 34)%nat with true. cbn iota.
  rewrite scan_escape. cbn [mbind option_bind]. simpl skip_ws. cbn iota beta.
  change (code ":" =? 58)%nat with true. cbn iota.
  rewrite parse_value_space, (Hp t Hv fuel rest Hfuel Hrest). reflexivity.
Qed.

Lemma parse_members_dumps d ts :
  Forall2 (fun kv m => (t ← dumps kv.2; Some (member_text kv.1 t)) = Some m) d ts ->
  Forall (fun kv => parses kv.2) d -> d <> [] ->
  forall fuel rest,
    (String.length (String.concat ", " ts) < fuel)%nat ->
    parse_members fuel (String.concat ", " ts +:+ String "}" rest)
    = Some (map (fun kv => (kv.1, jsonify kv.2)) d, rest).
Proof.
  induction 1 as [|[k v] m d ts Hm Hrest IH]; [done|].
  intros Hall _ fuel rest Hfuel.
  apply Forall_cons in Hall as [Hp Hall]. simpl in Hp, Hm.
  destruct (dumps v) as [t|] eqn:Hv; [|discriminate Hm].
  injection Hm as <-.
  destruct fuel as [|fuel]; [lia|].
  pose proof (length_concat_head (member_text k t) ts) as Hlen.
  pose proof (length_member_text k t) as Hlen'.
  destruct Hrest as [|kv' m' d' ts' Hm' Hrest'].
  - cbn [String.concat] in *.
    rewrite (parse_member k v t fuel _ Hp Hv) by (cbn; (lia || auto)).
    reflexivity.
  - rewrite concat_cons in Hfuel |- *. rewrite !length_append in Hfuel.
    rewrite !append_assoc.
    rewrite (parse_member k v t fuel _ Hp Hv) by (cbn; (lia || auto)).
    simpl skip_ws. cbn iota beta.
    change (code "," =? 44)%nat with true. cbn iota.
    rewrite parse_members_space.
    rewrite IH; [reflexivity|exact Hall|discriminate|].
    cbn [String.length] in Hfuel. lia.
Qed.

Lemma head_ok_concat t ts : head_ok t -> head_ok (String.concat ", " (t :: ts)).
Proof. destruct ts; [done|]. rewrite concat_cons. by destruct t. Qed.

Lemma parse_value_array fuel s1 :
  parse_value (S fuel) (String "[" s1)
  = match skip_ws s1 with
    | String c' s2 =>
        if (code c' =? 93)%nat then Some (PyList [], s2)
        else '(l, r) ← parse_items fuel s1; Some (PyList l, r)
    | EmptyString => None
    end.
Proof. reflexivity. Qed.

Lemma parse_value_object fuel s1 :
  parse_value (S fuel) (String "{" s1)
  = match skip_ws s1 with
    | String c' s2 =>
        if (code c' =? 125)%nat then Some (PyDict [], s2)
        else '(d, r) ← parse_members fuel s1; Some (PyDict (dict_of_pairs d), r)
    | EmptyString => None
    end.
Proof. reflexivity. Qed.

Lemma parse_array l ts fuel rest :
  Forall2 (fun v t => dumps v = Some t) l ts -> Forall parses l ->
  (String.length ("[" +:+ String.concat ", " ts +:+ "]") <= fuel)%nat ->
  parse_value fuel (("[" +:+ String.concat ", " ts +:+ "]") +:+ rest)
  = Some (PyList (map jsonify l), rest).
Proof.
  intros Hts Hall Hfuel.
  destruct fuel as [|fuel]; [simpl in Hfuel; lia|].
  destruct Hts as [|v t l ts Hv Hts]; [reflexivity|].
  change ("[" +:+ ?x) with (String "[" x) in *.
  cbn [String.append String.length] in *. rewrite length_append in Hfuel.
  rewrite append_assoc, parse_value_array.
  destruct (skip_ws_head (String.concat ", " (t :: ts)) ("]" +:+ rest))
    as (c & s & -> & _ & -> & _).
  { apply head_ok_concat. by eapply dumps_head. }
  change ("]" +:+ rest) with (String "]" rest).
  change (String.length "]") with 1%nat in Hfuel.
  rewrite (parse_items_dumps (v :: l) (t :: ts));
    [reflexivity|by constructor|exact Hall|discriminate|lia].
Qed.

Lemma parse_object d ts fuel rest :
  Forall2 (fun kv m => (t ← dumps kv.2; Some (member_text kv.1 t)) = Some m) d ts ->
  Forall (fun kv => parses kv.2) d ->
  (String.length ("{" +:+ String.concat ", " ts +:+ "}") <= fuel)%nat ->
  parse_value fuel (("{" +:+ String.concat ", " ts +:+ "}") +:+ rest)
  = Some (PyDict (dict_of_pairs (map (fun kv => (kv.1, jsonify kv.2)) d)), rest).
Proof.
  intros Hts Hall Hfuel.
  destruct fuel as [|fuel]; [simpl in Hfuel; lia|].
  destruct Hts as [|[k v] m d ts Hm Hts]; [reflexivity|].
  change ("{" +:+ ?x) with (String "{" x) in *.
  cbn [String.append String.length] in *. rewrite length_append in Hfuel.
  rewrite append_assoc, parse_value_object.
  destruct (skip_ws_head (String.concat ", " (m :: ts)) ("}" +:+ rest))
    as (c & s & -> & _ & _ & ->).
  { apply head_ok_concat. simpl in Hm.
    destruct (dumps v); [|discriminate Hm]. by injection Hm as <-. }
  change ("}" +:+ rest) with (String "}" rest).
  change (String.length "}") with 1%nat in Hfuel.
  rewrite (parse_members_dumps ((k, v) :: d) (m :: ts));
    [reflexivity|by constructor|exact Hall|discriminate|lia].
Qed.

Lemma parse_dumps v : parses v.
Proof.
  induction v as [ |b|z|s|l IH|l IH|d IH|l] using pyvalue_ind;
    intros t Ht fuel rest Hfuel Hrest.
  - injection Ht as <-. destruct fuel; [simpl in Hfuel; lia|]. reflexivity.
  - destruct b; injection Ht as <-;
      (destruct fuel; [simpl in Hfuel; lia|]); reflexivity.
  - injection Ht as <-.
    destruct fuel.
    { destruct z as [|p|p]; simpl in Hfuel; try lia.
      destruct (dumps_nat_head (N.pos p)) as (c & s & Hc & _).
      rewrite Hc in Hfuel. simpl in Hfuel. lia. }
    by apply parse_dumps_int.
  - injection Ht as <-. destruct fuel; [simpl in Hfuel; lia|].
    rewrite scan_dumps_str, parse_value_S. simpl skip_ws. cbn iota beta.
    change (code dquote =? 110)%nat with false.
    change (code dquote =? 116)%nat with false.
    change (code dquote =? 102)%nat with false.
    change (code dquote =? 34)%nat with true. cbn iota.
    rewrite scan_escape. reflexivity.
  - rewrite dumps_list_eq in Ht.
    destruct (mapM dumps l) as [ts|] eqn:Hts; [|discriminate Ht].
    injection Ht as <-. apply mapM_Some in Hts.
    by apply parse_array.
  - rewrite dumps_tuple_eq in Ht.
    destruct (mapM dumps l) as [ts|] eqn:Hts; [|discriminate Ht].
    injection Ht as <-. apply mapM_Some in Hts.
    by apply parse_array.
  - rewrite dumps_dict_eq in Ht.
    destruct (mapM _ d) as [ts|] eqn:Hts; [|discriminate Ht].
    injection Ht as <-. apply mapM_Some in Hts.
    by apply parse_object.
  - discriminate Ht.
Qed.

(** [json.loads(json.dumps(v))] is [v] with its tuples turned to lists. *)
Lemma loads_dumps v t : dumps v = Some t -> loads t = Some (jsonify v).
Proof.
  intros Ht. unfold loads.
  rewrite <- (append_empty_r t) at 2.
  rewrite (parse_dumps v t Ht (S (String.length t)) "") by (simpl; (lia || auto)).
  reflexivity.
Qed.

Lemma dict_set_fresh k v d :
  k ∉ d.*1 -> dict_set k v d = d ++ [(k, v)].
Proof.
  induction d as [|[k' v'] d IH]; [reflexivity|].
  intros Hk. simpl in *. apply not_elem_of_cons in Hk as [Hne Hk].
  destruct (String.eqb_spec k k'); [done|]. by rewrite IH.
Qed.

Lemma fold_dict_set acc d :
  NoDup ((acc ++ d).*1) ->
  fold_left (fun d kv => dict_set kv.1 kv.2 d) d acc = acc ++ d.
Proof.
  revert acc. induction d as [|[k v] d IH]; intros acc Hnd; simpl.
  - by rewrite app_nil_r.
  - rewrite dict_set_fresh.
    + rewrite IH; by rewrite <- app_assoc.
    + rewrite fmap_app in Hnd. apply NoDup_app in Hnd as (_ & Hdis & _).
      intros Hin. apply (Hdis k Hin). simpl. left.
Qed.

Lemma dict_of_pairs_nodup d : NoDup (d.*1) -> dict_of_pairs d = d.
Proof. intros Hnd. unfold dict_of_pairs. by rewrite fold_dict_set. Qed.

(** A value of JSON's own types is not changed by the trip. *)
Lemma jsonify_native v : json_native v = true -> jsonify v = v.
Proof.
  induction v as [ |b|z|s|l IH|l IH|d IH|l] using pyvalue_ind;
    try reflexivity; try discriminate.
  - simpl. intros Hall. f_equal.
    induction IH as [|v l Hv _ IHl]; [reflexivity|].
    simpl in Hall. apply andb_true_iff in Hall as [H1 H2].
    simpl. by rewrite Hv, IHl.
  - simpl. intros H. apply andb_true_iff in H as [Hnd Hall].
    apply bool_decide_eq_true in Hnd. f_equal.
    assert (Hmap : map (fun kv => (kv.1, jsonify kv.2)) d = d).
    { clear Hnd. induction IH as [|[k v] d Hv _ IHd]; [reflexivity|].
      simpl in Hall. apply andb_true_iff in Hall as [H1 H2].
      simpl in *. by rewrite Hv, IHd. }
    rewrite Hmap. by apply dict_of_pairs_nodup.
Qed.

Lemma dumps_native v : json_native v = true -> is_Some (dumps v).
Proof.
  induction v as [ |b|z|s|l IH|l IH|d IH|l] using pyvalue_ind;
    try discriminate; try (by eexists).
  - by destruct b.
  - intros Hall. rewrite dumps_list_eq.
    assert (Hts : is_Some (mapM dumps l)).
    { apply mapM_is_Some. simpl in Hall.
      induction IH as [|v l Hv _ IHl]; constructor;
        simpl in Hall; apply andb_true_iff in Hall as [H1 H2]; auto. }
    destruct Hts as [ts ->]. by eexists.
  - intros H. rewrite dumps_dict_eq. simpl in H.
    apply andb_true_iff in H as [_ Hall].
    assert (Hts : is_Some (mapM (fun kv => t ← dumps kv.2; Some (member_text kv.1 t)) d)).
    { apply mapM_is_Some.
      induction IH as [|[k v] d Hv _ IHd]; constructor;
        simpl in Hall; apply andb_true_iff in Hall as [H1 H2]; auto.
      simpl in *. destruct (Hv H1) as [t ->]. by eexists. }
    destruct Hts as [ts ->]. by eexists.
Qed.

(** Round trip through the [json] module. *)
Lemma json_round_trip v :
  json_native v = true ->
  exists t, dumps v = Some t /\ loads t = Some v.
Proof.
  intros Hnat. destruct (dumps_native v Hnat) as [t Ht].
  exists t. split; [exact Ht|].
  by rewrite (loads_dumps v t Ht), jsonify_native.
Qed.

End JsonRoundTrip.

(** ** [store] then [get] *)



Lemma is_empty_false key : key <> "" -> Text.is_empty key = false.
Proof. by destruct key. Qed.



(** ** Metadata *)

(** Every [Memory] that [search] or [list_all] returns was made from a row
    of the table, found under the [Memory]'s key. *)
Lemma decoded_from_row cond t ms m :
  decoded (Sql.select_where cond t) = Ok ms -> m ∈ ms ->
  exists r, t !! Memory.key m = Some r /\ memory_of (Memory.key m, r) = Some m.
Proof.
  unfold decoded. intros Hdec Hin.
  destruct (mapM memory_of (Sql.select_where cond t)) as [ms'|] eqn:Hms;
    [|discriminate Hdec].
  injection Hdec as ->. apply mapM_Some in Hms.
  destruct (select_where_spec cond t) as (_ & _ & Hmem).
  apply list_elem_of_lookup in Hin as [i Hi].
  destruct (Forall2_lookup_r _ _ _ _ _ Hms Hi) as ([k r] & Hkr & Hm).
  assert (Hk : Memory.key m = k).
  { unfold memory_of in Hm. simpl in Hm.
    destruct (Json.loads (value_json r)); [|discriminate Hm]. simpl in Hm.
    destruct (match given (metadata_json r) with
              | Some text => Json.loads text
              | None => Some PyNone
              end); [|discriminate Hm].
    by injection Hm as <-. }
  rewrite Hk. exists r. split; [|exact Hm].
  apply (Hmem k r). apply list_elem_of_lookup. eauto.
Qed.






(** ** The repository's own tests *)

Example test_store_and_retrieve :
  result
    ((ok ← store atlas "test_key" (PyStr "test_value") "agent" PyNone "t1" DiskOk;
      v ← get atlas "test_key" (Some "agent") PyNone;
      store atlas "complex"
        (PyDict [("name", PyStr "Atlas");
                 ("tasks", PyList [PyInt 1; PyInt 2; PyInt 3]);
                 ("active", PyBool true)]) "team" PyNone "t2" DiskOk;;
      w ← get atlas "complex" None PyNone;
      mret (ok, v, w)) ∅)
  = Ok (true, PyStr "test_value",
        PyDict [("name", PyStr "Atlas");
                ("tasks", PyList [PyInt 1; PyInt 2; PyInt 3]);
                ("active", PyBool true)]).
Proof. vm_compute. reflexivity. Qed.

Example test_scopes :
  result
    ((store atlas "my_task" (PyStr "Building tools") "agent" PyNone "t1" DiskOk;;
      v1 ← get forge "my_task" (Some "agent") PyNone;
      v2 ← get forge "ATLAS:my_task" None PyNone;
      store atlas "team_status" (PyStr "All systems go") "team" PyNone "t2" DiskOk;;
      v3 ← get forge "team_status" None PyNone;
      mret (v1, v2, v3)) ∅)
  = Ok (PyNone, PyStr "Building tools", PyStr "All systems go").
Proof. vm_compute. reflexivity. Qed.

Example test_search :
  result
    ((store atlas "task_1" (PyStr "Build ScreenSnap") "team" PyNone "t1" DiskOk;;
      store atlas "task_2" (PyStr "Build TokenTracker") "team" PyNone "t2" DiskOk;;
      store atlas "note_1" (PyStr "ScreenSnap is awesome") "agent" PyNone "t3" DiskOk;;
      found ← search atlas "ScreenSnap" None;
      team ← search atlas "Build" (Some "team");
      mret (Memory.key <$> found, Memory.key <$> team)) ∅)
  = Ok (["ATLAS:note_1"; "task_1"], ["task_2"; "task_1"]).
Proof. vm_compute. reflexivity. Qed.

Example test_update_and_delete :
  result
    ((store atlas "counter" (PyInt 1) "team" PyNone "t1" DiskOk;;
      store atlas "counter" (PyInt 2) "team" PyNone "t2" DiskOk;;
      v ← get atlas "counter" None PyNone;
      store atlas "temp" (PyStr "temporary data") "team" PyNone "t3" DiskOk;;
      gone ← MemoryBridge.delete atlas "temp" (Some "team");
      w ← get atlas "temp" None PyNone;
      mret (v, gone, w)) ∅)
  = Ok (PyInt 2, true, PyNone).
Proof. vm_compute. reflexivity. Qed.

Example test_list_all :
  result
    ((store atlas "m1" (PyStr "value1") "agent" PyNone "t1" DiskOk;;
      store atlas "m2" (PyStr "value2") "team" PyNone "t2" DiskOk;;
      store atlas "m3" (PyStr "value3") "global" PyNone "t3" DiskOk;;
      every ← list_all atlas None None;
      team ← list_all atlas (Some "team") None;
      mret (length every, length team)) ∅)
  = Ok (3%nat, 1%nat).
Proof. vm_compute. reflexivity. Qed.

(** * Further properties of the code *)

(** ** [store]: validation and atomicity *)









(** X3. [store] is all or nothing: unless it returns [True] the table is
    exactly what it was, and when it returns [True] the keys of the table
    are the old ones together with the storage key. *)
Theorem store_all_or_nothing (self : MemoryBridge.t) (key : string)
    (value : pyvalue) (scope : string) (metadata : pyvalue) (now : string)
    (disk : disk_state) (t : table) :
  let o := store self key value scope metadata now disk t in
  (result o <> Ok true -> db o = t)
  /\ (result o = Ok true -> dom (db o) = {[storage_key self scope key]} ∪ dom t).
Proof.
  intros o. split.
  - subst o. rewrite store_unfold.
    destruct (Text.is_empty key); [done|].
    destruct (negb _); [done|].
    destruct (Json.dumps value); [|done].
    destruct (_ && _); [done|].
    destruct disk; simpl; [|done]. intros H. by destruct H.
  - intros Hok. subst o.
    destruct (store_true _ _ _ _ _ _ _ _ Hok) as (vjson & _ & _ & ->).
    apply dom_insert_L.
Qed.

Lemma store_all_or_nothing_witness :
  db (store atlas "" (PyInt 1) "team" PyNone "now" DiskOk team_status) = team_status.
Proof.
  refine (proj1 (store_all_or_nothing atlas "" (PyInt 1) "team" PyNone "now" DiskOk
                   team_status) _).
  discriminate.
Defined.

(** X4. A successful [store] under a storage key that has no entry yet
    creates the row with the value's text and type name, the call's scope,
    the caller as owner, [created] and [updated] both at the time of the
    write, and an access count of 0. *)
Theorem store_creates_row (self : MemoryBridge.t) (key : string)
    (value : pyvalue) (scope : string) (metadata : pyvalue) (now : string)
    (disk : disk_state) (t : table) :
  let sk := storage_key self scope key in
  let o := store self key value scope metadata now disk t in
  t !! sk = None ->
  result o = Ok true ->
  exists vjson,
    Json.dumps value = Some vjson
    /\ db o !! sk
       = Some (Row vjson (type_name value) scope (agent_name self) now now 0
                   (metadata_column metadata)).
Proof.
  intros sk o Hnew Hok. subst o.
  destruct (store_true _ _ _ _ _ _ _ _ Hok) as (vjson & Hv & _ & ->).
  exists vjson. split; [exact Hv|]. fold sk.
  by rewrite lookup_insert_eq, Hnew.
Qed.

Lemma store_creates_row_witness :
  exists vjson,
    Json.dumps (PyInt 7) = Some vjson
    /\ db (store forge "n" (PyInt 7) "agent" PyNone "2026-01-18T11:00:00" DiskOk
                 team_status) !! "FORGE:n"
       = Some (Row vjson "int" "agent" "FORGE" "2026-01-18T11:00:00"
                   "2026-01-18T11:00:00" 0 None).
Proof.
  exact (store_creates_row forge "n" (PyInt 7) "agent" PyNone "2026-01-18T11:00:00"
           DiskOk team_status eq_refl eq_refl).
Defined.

(** X5. The scope of an entry is fixed when it is created: a successful
    [store] onto an existing entry leaves its [scope] column as it was, even
    when the call names another scope (team and global share a key). *)
Theorem store_overwrite_keeps_scope (self : MemoryBridge.t) (key : string)
    (value : pyvalue) (scope_arg : string) (metadata : pyvalue) (now : string)
    (disk : disk_state) (t : table) (r : row) :
  let sk := storage_key self scope_arg key in
  let o := store self key value scope_arg metadata now disk t in
  t !! sk = Some r ->
  result o = Ok true ->
  scope <$> db o !! sk = Some (scope r).
Proof.
  intros sk o Hr Hok. subst o.
  destruct (store_true _ _ _ _ _ _ _ _ Hok) as (vjson & _ & _ & ->).
  fold sk. by rewrite lookup_insert_eq, Hr.
Qed.

Lemma store_overwrite_keeps_scope_witness :
  scope <$> db (store forge "status" (PyStr "busy") "global" PyNone
                      "2026-01-18T11:00:00" DiskOk team_status) !! "status"
  = Some "team".
Proof.
  exact (store_overwrite_keeps_scope forge "status" (PyStr "busy") "global" PyNone
           "2026-01-18T11:00:00" DiskOk team_status
           (Row (String Text.dquote ("ok" +:+ String Text.dquote ""))
                "str" "team" "ATLAS" "2026-01-18T10:00:00"
                "2026-01-18T10:00:00" 0 None)
           eq_refl eq_refl).
Defined.

(** ** [get]: misses and what a hit may change *)

(** X6. When every probe misses (the only probe, for an explicit scope),
    [get] returns the default, changes nothing and sends no UPDATE. *)
Theorem get_miss_returns_default (self : MemoryBridge.t) (key : string)
    (scope_arg : option string) (default : pyvalue) (t : table) :
  let pk := match scope_arg with
            | None => prefixed self key
            | Some sc => if bool_decide (sc = "agent") then prefixed self key else key
            end in
  let o := get self key scope_arg default t in
  t !! pk = None ->
  (scope_arg = None -> t !! key = None) ->
  result o = Ok default
  /\ db o = t
  /\ forall k1 k2, BumpAccess k1 k2 ∉ trace o.
Proof.
  intros pk o Hpk Hkey. subst o. rewrite get_unfold.
  assert (Hpk' : match scope_arg with
                 | None => prefixed self key
                 | Some sc => if String.eqb sc "agent" then prefixed self key else key
                 end = pk).
  { subst pk. destruct scope_arg as [sc|]; [|reflexivity].
    destruct (String.eqb_spec sc "agent"); case_bool_decide; congruence. }
  rewrite Hpk', Hpk.
  destruct scope_arg as [sc|]; cbn [result db trace answer].
  - repeat split. intros k1 k2 Hin. simpl in Hin.
    apply list_elem_of_singleton in Hin. discriminate Hin.
  - rewrite (Hkey eq_refl). cbn [result db trace answer]. repeat split.
    intros k1 k2 Hin. simpl in Hin.
    repeat (apply elem_of_cons in Hin as [Hin|Hin]; [discriminate Hin|]).
    by apply elem_of_nil in Hin.
Qed.

Lemma get_miss_returns_default_witness :
  result (get forge "status" (Some "agent") (PyStr "none") team_status)
  = Ok (PyStr "none").
Proof.
  exact (proj1 (get_miss_returns_default forge "status" (Some "agent") (PyStr "none")
                  team_status eq_refl (fun H => match H with end))).
Defined.

(** X7. [get] neither creates nor removes an entry, and of an entry it can
    change the access count only, by nothing or by one. *)
Theorem get_changes_only_counts (self : MemoryBridge.t) (key : string)
    (scope_arg : option string) (default : pyvalue) (t : table) (k : string) :
  match t !! k, db (get self key scope_arg default t) !! k with
  | Some r, Some r' =>
      value_json r' = value_json r /\ value_type r' = value_type r
      /\ scope r' = scope r /\ owner r' = owner r
      /\ created r' = created r /\ updated r' = updated r
      /\ metadata_json r' = metadata_json r
      /\ access_count r <= access_count r' <= access_count r + 1
  | None, None => True
  | _, _ => False
  end.
Proof.
  rewrite get_access_counts.
  destruct (match t !! _, scope_arg with
            | None, None => t !! key
            | o, _ => o
            end) as [hit|].
  - destruct (_ || _); destruct (t !! k) as [r|]; simpl; try done;
      repeat split; lia.
  - destruct (t !! k) as [r|]; [|done]. repeat split; lia.
Qed.

(** ** [delete] with the other methods *)

Lemma delete_removes_derived_key_frame self key scope_arg t :
  let dk := match scope_arg with
            | Some sc => if bool_decide (sc = "agent") then prefixed self key else key
            | None => key
            end in
  db (MemoryBridge.delete self key scope_arg t) = base.delete dk t
  /\ db (MemoryBridge.delete self key scope_arg t) !! dk = None.
Proof.
  intros dk.
  assert (Hdk : dk = match scope_arg with
                     | Some sc => if String.eqb sc "agent" then prefixed self key else key
                     | None => key
                     end).
  { subst dk. destruct scope_arg as [sc|]; [|reflexivity].
    destruct (String.eqb_spec sc "agent"); case_bool_decide; congruence. }
  unfold MemoryBridge.delete. rewrite <- Hdk.
  unfold mbind, M_bind, Sql.delete_key. simpl.
  split; [reflexivity|apply lookup_delete_eq].
Qed.

(** X8. After [delete(k, s)] the same bridge's [get(k, s)] returns the
    default, and a second [delete(k, s)] returns [False]. *)
Theorem delete_then_get (self : MemoryBridge.t) (key sc : string)
    (default : pyvalue) (t : table) :
  let t' := db (MemoryBridge.delete self key (Some sc) t) in
  result (get self key (Some sc) default t') = Ok default
  /\ result (MemoryBridge.delete self key (Some sc) t') = Ok false.
Proof.
  intros t'.
  destruct (delete_removes_derived_key_frame self key (Some sc) t) as (Hdb & Hgone).
  fold t' in Hdb, Hgone.
  assert (Hdk : (if bool_decide (sc = "agent") then prefixed self key else key)
                = (if String.eqb sc "agent" then prefixed self key else key)).
  { destruct (String.eqb_spec sc "agent"); case_bool_decide; congruence. }
  split.
  - rewrite get_unfold. cbn [result]. rewrite <- Hdk, Hgone. reflexivity.
  - destruct (delete_removes_derived_key_frame self key (Some sc) t') as (Hdb' & _).
    unfold MemoryBridge.delete, mbind, M_bind, Sql.delete_key. cbn.
    rewrite <- Hdk, Hgone. reflexivity.
Qed.

(** X9. After a successful [store(k, v, s)] the same bridge's
    [delete(k, s)] returns [True] and removes that entry; if the entry was
    new, the table is back to what it was before the [store]. *)
Theorem store_then_delete (self : MemoryBridge.t) (key : string)
    (value : pyvalue) (scope_arg : string) (metadata : pyvalue) (now : string)
    (disk : disk_state) (t : table) :
  let sk := storage_key self scope_arg key in
  let o := store self key value scope_arg metadata now disk t in
  let o' := MemoryBridge.delete self key (Some scope_arg) (db o) in
  result o = Ok true ->
  result o' = Ok true
  /\ db o' = base.delete sk t
  /\ (t !! sk = None -> db o' = t).
Proof.
  intros sk o o' Hok. subst o o'.
  destruct (store_true _ _ _ _ _ _ _ _ Hok) as (vjson & _ & _ & ->). fold sk.
  assert (Hsk : (if String.eqb scope_arg "agent" then prefixed self key else key) = sk)
    by reflexivity.
  unfold MemoryBridge.delete, mbind, M_bind, Sql.delete_key. cbn. rewrite Hsk.
  rewrite lookup_insert_eq, delete_insert_eq.
  repeat split. intros Hnew. by apply delete_id.
Qed.

Lemma store_then_delete_witness :
  db (MemoryBridge.delete forge "n" (Some "agent")
        (db (store forge "n" (PyInt 7) "agent" PyNone "2026-01-18T11:00:00" DiskOk
                   team_status)))
  = team_status.
Proof.
  exact (proj2 (proj2 (store_then_delete forge "n" (PyInt 7) "agent" PyNone
                         "2026-01-18T11:00:00" DiskOk team_status eq_refl))
           eq_refl).
Defined.

(** ** Agents *)

Lemma append_cancel_r (a b s : string) : a +:+ s = b +:+ s -> a = b.
Proof.
  revert b. induction a as [|c a IH]; intros b H.
  - destruct b as [|c' b]; [reflexivity|].
    apply (f_equal String.length) in H. simpl in H.
    rewrite length_append in H. lia.
  - destruct b as [|c' b].
    + apply (f_equal String.length) in H. simpl in H.
      rewrite length_append in H. lia.
    + simpl in H. injection H as -> H. f_equal. by apply IH.
Qed.

Lemma prefixed_agents self other key :
  agent_name self <> agent_name other -> prefixed self key <> prefixed other key.
Proof.
  unfold prefixed. intros Hne H. apply Hne. by apply append_cancel_r in H.
Qed.

Lemma prefixed_not_empty self key : prefixed self key <> "".
Proof.
  unfold prefixed. intros H. apply (f_equal String.length) in H.
  rewrite length_append in H. simpl in H. lia.
Qed.

(** X10. Private entries are private by key: whatever an agent stores for
    itself under a key, and whether or not the call succeeds, another
    agent's [get] of that key with scope "agent" gives what it gave
    before. *)
Theorem agent_scope_isolated (writer reader : MemoryBridge.t) (key : string)
    (value metadata : pyvalue) (now : string) (disk : disk_state)
    (default : pyvalue) (t : table) :
  agent_name writer <> agent_name reader ->
  result (get reader key (Some "agent") default
            (db (store writer key value "agent" metadata now disk t)))
  = result (get reader key (Some "agent") default t).
Proof.
  intros Hne. rewrite !get_unfold. cbn [result].
  change (if String.eqb "agent" "agent" then prefixed reader key else key)
    with (prefixed reader key).
  rewrite store_frame; [reflexivity|].
  intros E. apply (prefixed_agents writer reader key Hne). by rewrite E.
Qed.

Lemma agent_scope_isolated_witness :
  result (get forge "k" (Some "agent") PyNone own_entry) = Ok PyNone.
Proof.
  refine (eq_trans
    (agent_scope_isolated atlas forge "k" (PyStr "old") PyNone "2026-01-18T09:00:00"
       DiskOk PyNone ∅ _) eq_refl).
  discriminate.
Defined.

(** X11. A private entry can be read by anyone who spells out its storage
    key: after agent A has stored [k] for itself, an unscoped
    [get("A:k")] by any agent that has no entry of its own under that name
    returns the value. *)
Theorem qualified_key_reads_private_entry (writer reader : MemoryBridge.t)
    (key : string) (v : pyvalue) (now : string) (default : pyvalue) (t : table) :
  key <> "" ->
  json_native v = true ->
  t !! prefixed reader (prefixed writer key) = None ->
  result (get reader (prefixed writer key) None default
            (db (store writer key v "agent" PyNone now DiskOk t)))
  = Ok v.
Proof.
  intros Hkey Hnat Hown.
  destruct (json_round_trip v Hnat) as (text & Hdumps & Hloads).
  rewrite store_unfold, (is_empty_false _ Hkey), Hdumps.
  cbn [valid_scope negb truthy andb result db].
  change (valid_scope "agent") with true. cbn [negb db].
  rewrite get_unfold. cbn [result].
  change (storage_key writer "agent" key) with (prefixed writer key).
  rewrite lookup_insert_ne, Hown, lookup_insert_eq
    by (intros E; exact (prefixed_ne reader _ (eq_sym E))).
  unfold answer, Sql.upsert_row.
  destruct (t !! prefixed writer key); cbn [value_json]; by rewrite Hloads.
Qed.

Lemma qualified_key_reads_private_entry_witness :
  result (get forge "ATLAS:my_task" None PyNone
            (db (store atlas "my_task" (PyStr "Building tools") "agent" PyNone
                       "2026-01-18T09:00:00" DiskOk ∅)))
  = Ok (PyStr "Building tools").
Proof.
  refine (qualified_key_reads_private_entry atlas forge "my_task"
            (PyStr "Building tools") "2026-01-18T09:00:00" PyNone ∅ _ eq_refl eq_refl).
  discriminate.
Defined.

(** X12. A private entry can also be overwritten by anyone who spells out
    its storage key: a [store("A:k", v, "team")] (or "global") by any agent
    returns [True], agent A's own [get(k, "agent")] then returns [v], and the
    entry still carries its old scope and owner. *)
Theorem qualified_key_overwrites_private_entry (owner_agent writer : MemoryBridge.t)
    (key : string) (v : pyvalue) (scope_arg now : string) (default : pyvalue)
    (t : table) (r : row) :
  scope_arg = "team" \/ scope_arg = "global" ->
  json_native v = true ->
  t !! prefixed owner_agent key = Some r ->
  let o := store writer (prefixed owner_agent key) v scope_arg PyNone now DiskOk t in
  result o = Ok true
  /\ result (get owner_agent key (Some "agent") default (db o)) = Ok v
  /\ scope <$> db o !! prefixed owner_agent key = Some (scope r)
  /\ owner <$> db o !! prefixed owner_agent key = Some (owner r).
Proof.
  intros Hscope Hnat Hr o. subst o.
  destruct (json_round_trip v Hnat) as (text & Hdumps & Hloads).
  rewrite store_unfold, (is_empty_false _ (prefixed_not_empty _ _)), Hdumps.
  assert (Hsk : storage_key writer scope_arg (prefixed owner_agent key)
                = prefixed owner_agent key) by by destruct Hscope as [-> | ->].
  assert (Hvalid : valid_scope scope_arg = true) by by destruct Hscope as [-> | ->].
  rewrite Hvalid. cbn [negb truthy andb]. cbv zeta. rewrite Hsk, Hr.
  cbn [result db].
  rewrite get_unfold. cbn [result].
  change (if String.eqb "agent" "agent" then prefixed owner_agent key else key)
    with (prefixed owner_agent key).
  rewrite !lookup_insert_eq. unfold answer, Sql.upsert_row.
  cbn [value_json scope owner fmap option_fmap option_map]. by rewrite Hloads.
Qed.

Lemma qualified_key_overwrites_private_entry_witness :
  result (get atlas "k" (Some "agent") PyNone
            (db (store forge "ATLAS:k" (PyStr "mine now") "team" PyNone
                       "2026-01-18T10:00:00" DiskOk own_entry)))
  = Ok (PyStr "mine now").
Proof.
  exact (proj1 (proj2
    (qualified_key_overwrites_private_entry atlas forge "k" (PyStr "mine now") "team"
       "2026-01-18T10:00:00" PyNone own_entry
       (Row (String Text.dquote ("old" +:+ String Text.dquote ""))
            "str" "agent" "ATLAS" "2026-01-18T09:00:00" "2026-01-18T09:00:00" 0 None)
       (or_introl eq_refl) eq_refl eq_refl))).
Defined.







(** ** [search] and [list_all] *)

Lemma select_where_ext cond1 cond2 t :
  (forall k r, cond1 k r = cond2 k r) ->
  Sql.select_where cond1 t = Sql.select_where cond2 t.
Proof.
  intros H. unfold Sql.select_where. f_equal.
  apply list_filter_iff. intros [k r]. simpl. by rewrite H.
Qed.

Lemma like_any s : Sql.like "%%" s = true.
Proof.
  apply like_percent_iff. exists s, "". split; [by rewrite append_empty_r|].
  apply like_percent_only.
Qed.

(** X14. The empty query matches every entry: [search("", s)] returns what
    [list_all(s)] returns. *)
Theorem search_empty_query_lists_all (self : MemoryBridge.t)
    (scope_arg : option string) (t : table) :
  result (search self "" scope_arg t) = result (list_all self scope_arg None t)
  /\ db (search self "" scope_arg t) = t.
Proof.
  rewrite search_unfold, list_all_unfold. cbn [result db]. split; [|reflexivity].
  f_equal. apply select_where_ext. intros k r. cbn [String.append].
  rewrite like_any. simpl. by rewrite andb_true_r.
Qed.

Lemma memory_of_fields kr m :
  memory_of kr = Some m ->
  Memory.key m = kr.1 /\ Memory.scope m = scope kr.2 /\ Memory.owner m = owner kr.2
  /\ Memory.created m = created kr.2 /\ Memory.updated m = updated kr.2
  /\ Memory.access_count m = access_count kr.2
  /\ Json.loads (value_json kr.2) = Some (Memory.value m).
Proof.
  unfold memory_of.
  destruct (Json.loads (value_json kr.2)) as [v|]; [|discriminate]. simpl.
  destruct (match given (metadata_json kr.2) with
            | Some text => Json.loads text
            | None => Some PyNone
            end); [|discriminate].
  simpl. by intros [= <-].
Qed.

Lemma decoded_Forall2 rows ms :
  decoded rows = Ok ms -> Forall2 (fun kr m => memory_of kr = Some m) rows ms.
Proof.
  unfold decoded. destruct (mapM memory_of rows) as [ms'|] eqn:H; [|discriminate].
  intros [= <-]. by apply mapM_Some.
Qed.

Lemma decoded_keys rows ms :
  Forall2 (fun kr m => memory_of kr = Some m) rows ms -> Memory.key <$> ms = rows.*1.
Proof.
  induction 1 as [|kr m rows ms Hm _ IH]; [reflexivity|].
  cbn [fmap list_fmap]. f_equal; [|exact IH].
  by destruct (memory_of_fields _ _ Hm) as [-> _].
Qed.

Lemma decoded_sorted rows ms :
  Forall2 (fun kr m => memory_of kr = Some m) rows ms ->
  Sorted Sql.updated_desc rows ->
  Sorted (fun m1 m2 => String.le (Memory.updated m2) (Memory.updated m1)) ms.
Proof.
  induction 1 as [|kr m rows ms Hm Hrest IH]; intros Hs; [constructor|].
  apply Sorted_inv in Hs as [Hs Hhd]. constructor; [by apply IH|].
  destruct Hrest as [|kr' m' rows' ms' Hm' _]; constructor.
  apply HdRel_inv in Hhd. unfold Sql.updated_desc in Hhd.
  destruct (memory_of_fields _ _ Hm) as (_ & _ & _ & _ & -> & _).
  by destruct (memory_of_fields _ _ Hm') as (_ & _ & _ & _ & -> & _).
Qed.

Lemma filter_all {A} (P : A -> Prop) `{!forall x, Decision (P x)} (l : list A) :
  (forall x, P x) -> filter P l = l.
Proof.
  intros Hall. induction l as [|x l IH]; [reflexivity|].
  rewrite filter_cons_True by apply Hall. by rewrite IH.
Qed.

(** X15. What [list_all] returns: one [Memory] for each entry that passes
    the filters (a filter that is absent or empty lets everything pass), each
    with the columns of its row, latest [updated] first, no key twice;
    without filters there are as many as the table has entries.  The table
    is left as it was. *)
Theorem list_all_returns_filtered (self : MemoryBridge.t)
    (scope_arg owner_arg : option string) (t : table) (ms : list Memory.t) :
  let o := list_all self scope_arg owner_arg t in
  result o = Ok ms ->
  db o = t
  /\ Sorted (fun m1 m2 => String.le (Memory.updated m2) (Memory.updated m1)) ms
  /\ NoDup (Memory.key <$> ms)
  /\ (forall m, m ∈ ms ->
        exists r, t !! Memory.key m = Some r /\ memory_of (Memory.key m, r) = Some m)
  /\ (forall k r, t !! k = Some r ->
        k ∈ Memory.key <$> ms
        <-> (forall s, given scope_arg = Some s -> scope r = s)
            /\ (forall ow, given owner_arg = Some ow -> owner r = ow))
  /\ (given scope_arg = None -> given owner_arg = None ->
      length ms = size t).
Proof.
  intros o Hok. subst o. rewrite list_all_unfold in Hok |- *. cbn [result db] in *.
  set (cond := fun (_ : string) (r : row) =>
                 Sql.scope_is (given scope_arg) r && Sql.owner_is (given owner_arg) r)
    in *.
  destruct (select_where_spec cond t) as (Hsorted & Hnodup & Hmem).
  pose proof (decoded_Forall2 _ _ Hok) as Hall.
  pose proof (decoded_keys _ _ Hall) as Hkeys.
  split; [reflexivity|]. split; [by eapply decoded_sorted|].
  split; [by rewrite Hkeys|]. split; [intros m Hm; by eapply decoded_from_row|].
  split.
  - intros k r Hr. rewrite Hkeys, list_elem_of_fmap. split.
    + intros ([k' r'] & -> & Hin). apply Hmem in Hin as [Hr' Hcond].
      simpl in Hr. rewrite Hr in Hr'. injection Hr' as <-.
      subst cond. simpl in Hcond. apply andb_true_iff in Hcond as [Hs Ho].
      unfold Sql.scope_is, Sql.owner_is in *. split.
      * intros s Hgiven. rewrite Hgiven in Hs. by apply String.eqb_eq.
      * intros ow Hgiven. rewrite Hgiven in Ho. by apply String.eqb_eq.
    + intros [Hs Ho]. exists (k, r). split; [reflexivity|]. apply Hmem.
      split; [exact Hr|]. subst cond. simpl. apply andb_true_iff.
      unfold Sql.scope_is, Sql.owner_is. split.
      * destruct (given scope_arg) as [s|]; [|reflexivity].
        apply String.eqb_eq. by apply Hs.
      * destruct (given owner_arg) as [ow|]; [|reflexivity].
        apply String.eqb_eq. by apply Ho.
  - intros Hs Ho. rewrite <- (Forall2_length _ _ _ Hall).
    unfold Sql.select_where. rewrite merge_sort_Permutation.
    rewrite filter_all, length_map_to_list; [reflexivity|].
    intros [k r]. subst cond. simpl. by rewrite Hs, Ho.
Qed.

Lemma list_all_returns_filtered_witness :
  length [Memory.mk "status" (PyStr "ok") "team" "ATLAS" "2026-01-18T10:00:00"
                    "2026-01-18T10:00:00" 0 PyNone]
  = size team_status.
Proof.
  refine (proj2 (proj2 (proj2 (proj2 (proj2
    (list_all_returns_filtered forge None (Some "") team_status _ _)))))
    eq_refl eq_refl).
  vm_compute. reflexivity.
Defined.

(** ** An invariant of the table *)


Lemma dict_set_keys k v d :
  (Json.dict_set k v d).*1 = d.*1
  \/ ((k ∉ d.*1) /\ (Json.dict_set k v d).*1 = d.*1 ++ [k]).
Proof.
  induction d as [|[k' v'] d IH]; cbn [Json.dict_set].
  - right. split; [apply not_elem_of_nil|reflexivity].
  - destruct (String.eqb_spec k k') as [->|Hne]; [by left|].
    rewrite !fmap_cons. cbn [fst].
    destruct IH as [->|[Hk ->]]; [by left|].
    right. split; [|reflexivity]. by apply not_elem_of_cons.
Qed.

Lemma dict_set_elem k v d kv :
  kv ∈ Json.dict_set k v d -> kv = (k, v) \/ kv ∈ d.
Proof.
  induction d as [|[k' v'] d IH]; simpl.
  - intros H. apply list_elem_of_singleton in H. by left.
  - destruct (String.eqb k k').
    + intros H. apply elem_of_cons in H as [H|H]; [by left|].
      right. by apply list_elem_of_further.
    + intros H. apply elem_of_cons in H as [->|H]; [right; left|].
      destruct (IH H) as [?|?]; [by left|right; by right].
Qed.

Lemma dict_set_not_nil k v d : Json.dict_set k v d <> [].
Proof. destruct d as [|[k' v'] d]; simpl; [done|]. by destruct (String.eqb k k'). Qed.

Lemma fold_dict_set_spec l acc :
  NoDup (acc.*1) ->
  let d := fold_left (fun d kv => Json.dict_set kv.1 kv.2 d) l acc in
  NoDup (d.*1)
  /\ (forall kv, kv ∈ d -> kv ∈ acc \/ kv ∈ l)
  /\ (acc <> [] \/ l <> [] -> d <> []).
Proof.
  revert acc. induction l as [|[k v] l IH]; intros acc Hnd; simpl.
  - split; [exact Hnd|]. split; [by left|]. by intros [?|?].
  - assert (Hnd' : NoDup (Json.dict_set k v acc).*1).
    { destruct (dict_set_keys k v acc) as [->|[Hk ->]]; [exact Hnd|].
      apply NoDup_app. split; [exact Hnd|]. split; [|apply NoDup_singleton].
      intros x Hx Hx'. apply list_elem_of_singleton in Hx'. by subst x. }
    destruct (IH _ Hnd') as (H1 & H2 & H3).
    split; [exact H1|]. split.
    + intros kv Hkv. destruct (H2 kv Hkv) as [Hin|Hin].
      * destruct (dict_set_elem _ _ _ _ Hin) as [->|?]; [right; left|by left].
      * right. by right.
    + intros _. apply H3. left. apply dict_set_not_nil.
Qed.








Lemma access_total_empty : Sql.access_total ∅ = 0.
Proof. unfold Sql.access_total. by rewrite map_fold_empty. Qed.

Lemma get_stats_unfold self t :
  get_stats self t
  = Outcome (Ok (Stats.mk (Z.of_nat (size t)) (Sql.group_counts scope t)
                          (Sql.group_counts owner t) (Sql.access_total t)))
            t [].
Proof.
  unfold get_stats, mbind, M_bind, Sql.count_all, Sql.count_by, Sql.sum_access.
  cbn. f_equal. f_equal. f_equal.
  destruct (decide (t = ∅)) as [->|_]; [by rewrite access_total_empty|].
  by destruct (Z.eqb_spec (Sql.access_total t) 0).
Qed.

Lemma print_each_unfold {A} (line : A -> string) (l : list A) (t : table) :
  Cli.print_each line l t = Outcome (Ok ()) t ((fun x => Printed (line x)) <$> l).
Proof.
  induction l as [|x l IH]; [reflexivity|].
  cbn [Cli.print_each]. rewrite bind_unfold. cbn [print result db trace].
  rewrite IH. reflexivity.
Qed.











(** ** [get_stats] *)

Lemma weighted_sum_insert {A} (w : A -> Z) (m : gmap string A) (k : string) (x : A) :
  map_fold (fun _ y acc => w y + acc) 0 (<[k := x]> m)
  = w x - default 0 (w <$> m !! k) + map_fold (fun _ y acc => w y + acc) 0 m.
Proof.
  assert (Hcomm : forall (m' : gmap string A) (j1 j2 : string) (z1 z2 : A) (y : Z),
            j1 <> j2 -> m' !! j1 = Some z1 -> m' !! j2 = Some z2 ->
            w z1 + (w z2 + y) = w z2 + (w z1 + y)) by (intros; lia).
  destruct (m !! k) as [x0|] eqn:Hk; simpl.
  - rewrite <- insert_delete_eq.
    rewrite map_fold_insert_L; [|by apply Hcomm|by rewrite lookup_delete_eq].
    rewrite (map_fold_delete_L _ _ k x0 m); [lia|by apply Hcomm|exact Hk].
  - rewrite map_fold_insert_L; [lia|by apply Hcomm|exact Hk].
Qed.

Lemma count_rows_empty cond : count_rows cond ∅ = 0.
Proof. unfold count_rows. by rewrite map_filter_empty, map_size_empty. Qed.

Lemma count_rows_insert cond (t : table) k r :
  t !! k = None ->
  count_rows cond (<[k := r]> t) = (if cond k r then 1 else 0) + count_rows cond t.
Proof.
  intros Hk. unfold count_rows. rewrite map_filter_insert. cbn [fst snd].
  destruct (cond k r) eqn:Hc.
  - rewrite decide_True by done.
    rewrite map_size_insert_None; [lia|].
    apply map_lookup_filter_None. left. exact Hk.
  - rewrite decide_False by discriminate.
    rewrite delete_id by done. lia.
Qed.

Lemma count_rows_nonneg cond t : 0 <= count_rows cond t.
Proof. unfold count_rows. lia. Qed.

Lemma group_counts_lookup (col : row -> string) (t : table) (s : string) :
  Sql.group_counts col t !! s
  = let n := count_rows (fun _ r => String.eqb (col r) s) t in
    if n =? 0 then None else Some n.
Proof.
  revert s. unfold Sql.group_counts.
  apply (map_fold_weak_ind
           (fun (acc : gmap string Z) (m : table) =>
              forall s, acc !! s
                        = let n := count_rows (fun _ r => String.eqb (col r) s) m in
                          if n =? 0 then None else Some n)).
  - intros s. by rewrite lookup_empty, count_rows_empty.
  - intros k r m acc Hk IH s. cbn zeta in *.
    rewrite count_rows_insert by done.
    pose proof (count_rows_nonneg (fun _ r => String.eqb (col r) s) m) as Hn.
    destruct (String.eqb_spec (col r) s) as [->|Hne].
    + rewrite lookup_insert_eq, IH.
      destruct (Z.eqb_spec (count_rows (fun _ r0 => String.eqb (col r0) s) m) 0)
        as [->|Hz]; simpl.
      * reflexivity.
      * destruct (Z.eqb_spec (1 + count_rows (fun _ r0 => String.eqb (col r0) s) m) 0);
          [lia|]. f_equal. lia.
    + rewrite lookup_insert_ne by done. by rewrite IH.
Qed.

Lemma group_counts_sum (col : row -> string) (t : table) :
  map_fold (fun _ n acc => n + acc) 0 (Sql.group_counts col t) = Z.of_nat (size t).
Proof.
  unfold Sql.group_counts.
  apply (map_fold_weak_ind
           (fun (acc : gmap string Z) (m : table) =>
              map_fold (fun _ n a => n + a) 0 acc = Z.of_nat (size m))).
  - by rewrite map_fold_empty, map_size_empty.
  - intros k r m acc Hk IH.
    rewrite (weighted_sum_insert (fun n => n)), IH, map_size_insert_None by done.
    destruct (acc !! col r); simpl; lia.
Qed.

(** X18. [get_stats] reads and changes nothing.  Its total is the number of
    entries; [by_scope] (and [by_owner]) holds exactly the scopes (owners)
    that occur, each with the number of entries carrying it, so its counts
    add up to the total. *)
Theorem get_stats_counts (self : MemoryBridge.t) (t : table) :
  let o := get_stats self t in
  db o = t
  /\ trace o = []
  /\ exists st,
       result o = Ok st
       /\ Stats.total_memories st = Z.of_nat (size t)
       /\ (forall s, Stats.by_scope st !! s
                     = let n := count_rows (fun _ r => String.eqb (scope r) s) t in
                       if n =? 0 then None else Some n)
       /\ (forall a, Stats.by_owner st !! a
                     = let n := count_rows (fun _ r => String.eqb (owner r) a) t in
                       if n =? 0 then None else Some n)
       /\ map_fold (fun _ n acc => n + acc) 0 (Stats.by_scope st)
          = Stats.total_memories st
       /\ map_fold (fun _ n acc => n + acc) 0 (Stats.by_owner st)
          = Stats.total_memories st.
Proof.
  intros o. subst o. rewrite get_stats_unfold. cbn [db trace result].
  split; [reflexivity|]. split; [reflexivity|].
  eexists. split; [reflexivity|]. cbn.
  split; [reflexivity|].
  split; [intros s; apply group_counts_lookup|].
  split; [intros a; apply group_counts_lookup|].
  split; apply group_counts_sum.
Qed.

Lemma update_where_keys (f : row -> row) (k1 k2 : string) (t : table) :
  Sql.update_where (fun k _ => String.eqb k k1 || String.eqb k k2) f t
  = if decide (k1 = k2) then alter f k1 t else alter f k1 (alter f k2 t).
Proof.
  apply map_eq. intros k. unfold Sql.update_where. rewrite map_lookup_imap.
  destruct (decide (k1 = k2)) as [<-|Hne].
  - rewrite lookup_alter. destruct (String.eqb_spec k k1) as [->|Hk].
    + rewrite decide_True by done. by destruct (t !! k1).
    + rewrite decide_False by done. by destruct (t !! k).
  - rewrite !lookup_alter.
    destruct (String.eqb_spec k k1) as [->|Hk1].
    + rewrite decide_True by done. rewrite decide_False by done.
      by destruct (t !! k1).
    + rewrite (decide_False (P := k1 = k)) by done.
      destruct (String.eqb_spec k k2) as [->|Hk2].
      * rewrite decide_True by done. by destruct (t !! k2).
      * rewrite decide_False by done. by destruct (t !! k).
Qed.

Lemma access_total_bump (k : string) (t : table) :
  Sql.access_total (alter Sql.bump k t)
  = Sql.access_total t + (if t !! k is Some _ then 1 else 0).
Proof.
  destruct (t !! k) as [r|] eqn:Hk.
  - assert (Halter : alter Sql.bump k t = <[k := Sql.bump r]> t).
    { apply map_eq. intros j. rewrite lookup_alter.
      destruct (decide (k = j)) as [<-|Hne].
      - by rewrite lookup_insert_eq, Hk.
      - by rewrite lookup_insert_ne. }
    rewrite Halter. unfold Sql.access_total.
    rewrite (weighted_sum_insert access_count), Hk. simpl. lia.
  - assert (Halter : alter Sql.bump k t = t).
    { apply map_eq. intros j. rewrite lookup_alter.
      destruct (decide (k = j)) as [<-|Hne]; [by rewrite Hk|reflexivity]. }
    rewrite Halter. lia.
Qed.

Lemma size_alter (f : row -> row) (k : string) (t : table) :
  size (alter f k t) = size t.
Proof. by rewrite <- !size_dom, dom_alter_L. Qed.

(** X19. How [get] moves the statistics.  The number of entries stays.  On
    a miss [total_accesses] stays too; on a hit it goes up by one for the
    entry at [AGENT:k] (or at [k], for scope team or global), if there is
    one, and by one more when [k] is a different key and has an entry as
    well: by 1 or 2 in all. *)
Theorem get_raises_total_accesses (self : MemoryBridge.t) (key : string)
    (scope_arg : option string) (default : pyvalue) (t : table)
    (st st' : Stats.t) :
  let pk := match scope_arg with
            | None => prefixed self key
            | Some sc => if String.eqb sc "agent" then prefixed self key else key
            end in
  let hit := match t !! pk, scope_arg with
             | None, None => t !! key
             | o, _ => o
             end in
  let bumped := (if t !! pk is Some _ then 1 else 0)
                + (if decide (pk = key) then 0
                   else if t !! key is Some _ then 1 else 0) in
  result (get_stats self t) = Ok st ->
  result (get_stats self (db (get self key scope_arg default t))) = Ok st' ->
  Stats.total_memories st' = Stats.total_memories st
  /\ Stats.total_accesses st'
     = Stats.total_accesses st + (if hit is Some _ then bumped else 0)
  /\ (hit <> None ->
      Stats.total_accesses st + 1 <= Stats.total_accesses st'
      <= Stats.total_accesses st + 2).
Proof.
  intros pk hit bumped. rewrite !get_stats_unfold, get_unfold.
  fold pk. fold hit. cbn [result db]. intros [= <-] [= <-].
  cbn [Stats.total_memories Stats.total_accesses].
  assert (Hbump : Sql.access_total
                    (Sql.update_where
                       (fun k _ => String.eqb k pk || String.eqb k key) Sql.bump t)
                  = Sql.access_total t + bumped
                  /\ size (Sql.update_where
                             (fun k _ => String.eqb k pk || String.eqb k key)
                             Sql.bump t) = size t).
  { rewrite update_where_keys. subst bumped.
    destruct (decide (pk = key)) as [E|Hne].
    - rewrite access_total_bump, size_alter. split; [lia|reflexivity].
    - rewrite !access_total_bump, !size_alter, lookup_alter_ne by done.
      split; [lia|reflexivity]. }
  destruct Hbump as [Hsum Hsize].
  assert (Hpos : hit <> None -> 1 <= bumped <= 2).
  { subst hit bumped. destruct (t !! pk) as [r|] eqn:Hpk.
    - intros _. destruct (decide (pk = key)); [lia|]. destruct (t !! key); lia.
    - destruct scope_arg as [sc|]; [done|].
      destruct (t !! key) eqn:Hkey; [|done]. intros _.
      destruct (decide (pk = key)) as [E|_]; [|lia].
      rewrite E, Hkey in Hpk. discriminate. }
  destruct hit as [r|].
  - rewrite Hsum, Hsize. split; [reflexivity|]. split; [reflexivity|].
    intros _. specialize (Hpos ltac:(discriminate)). lia.
  - split; [reflexivity|]. split; [lia|]. intros H. by destruct H.
Qed.

Lemma get_raises_total_accesses_witness :
  Sql.access_total (db (get atlas "k" None PyNone two_scopes))
  = Sql.access_total two_scopes + 2.
Proof.
  exact (proj1 (proj2
    (get_raises_total_accesses atlas "k" None PyNone two_scopes
       (Stats.mk 2 (Sql.group_counts scope two_scopes)
                 (Sql.group_counts owner two_scopes) (Sql.access_total two_scopes))
       (Stats.mk 2 (Sql.group_counts scope (db (get atlas "k" None PyNone two_scopes)))
                 (Sql.group_counts owner (db (get atlas "k" None PyNone two_scopes)))
                 (Sql.access_total (db (get atlas "k" None PyNone two_scopes))))
       eq_refl eq_refl))).
Defined.

(** X20. How [store] and [delete] move the statistics: a successful [store]
    adds one to the number of entries when the storage key is new and
    leaves it alone on an overwrite; [delete] takes one off when it returns
    [True] and leaves it alone when it returns [False].  Neither changes
    [total_accesses] otherwise than by dropping the deleted entry's count. *)
Theorem store_and_delete_move_total (self : MemoryBridge.t) (key : string)
    (value : pyvalue) (scope_arg : string) (metadata : pyvalue) (now : string)
    (disk : disk_state) (del_scope : option string) (t : table) :
  let sk := storage_key self scope_arg key in
  let stored := store self key value scope_arg metadata now disk t in
  let deleted := MemoryBridge.delete self key del_scope t in
  (result stored = Ok true ->
     Z.of_nat (size (db stored))
     = Z.of_nat (size t) + (if t !! sk is Some _ then 0 else 1)
     /\ Sql.access_total (db stored) = Sql.access_total t)
  /\ Z.of_nat (size (db deleted))
     = Z.of_nat (size t) - (match result deleted with Ok true => 1 | _ => 0 end).
Proof.
  intros sk stored deleted. split.
  - intros Hok. subst stored.
    destruct (store_true _ _ _ _ _ _ _ _ Hok) as (vjson & _ & _ & ->). fold sk.
    unfold Sql.access_total. rewrite map_size_insert, (weighted_sum_insert access_count).
    unfold Sql.upsert_row. destruct (t !! sk) as [r|]; simpl; split; lia.
  - subst deleted.
    destruct (delete_removes_derived_key_frame self key del_scope t) as [Hdb _].
    rewrite Hdb. rewrite map_size_delete.
    set (dk := match del_scope with
               | Some sc => if bool_decide (sc = "agent") then prefixed self key else key
               | None => key
               end) in *.
    assert (Hres : result (MemoryBridge.delete self key del_scope t)
                   = Ok (bool_decide (is_Some (t !! dk)))).
    { assert (Hdk : dk = match del_scope with
                         | Some sc => if String.eqb sc "agent"
                                      then prefixed self key else key
                         | None => key
                         end).
      { subst dk. destruct del_scope as [sc|]; [|reflexivity].
        destruct (String.eqb_spec sc "agent"); case_bool_decide; congruence. }
      unfold MemoryBridge.delete, mbind, M_bind, Sql.delete_key. cbn.
      rewrite <- Hdk. by destruct (t !! dk). }
    rewrite Hres. destruct (t !! dk) as [r|] eqn:Hdk; simpl.
    + assert (size t <> 0%nat).
      { intros Hz. apply map_size_empty_iff in Hz. subst t.
        by rewrite lookup_empty in Hdk. }
      lia.
    + lia.
Qed.

Lemma store_and_delete_move_total_witness :
  Z.of_nat (size (db (store forge "n" (PyInt 7) "agent" PyNone "2026-01-18T11:00:00"
                            DiskOk team_status)))
  = Z.of_nat (size team_status) + 1.
Proof.
  exact (proj1 (proj1
    (store_and_delete_move_total forge "n" (PyInt 7) "agent" PyNone
       "2026-01-18T11:00:00" DiskOk None team_status) eq_refl)).
Defined.

(** ** The command line *)

Section ParserOutput.
Import Json Text.

Lemma dict_of_pairs_native d :
  forallb (fun kv => json_native kv.2) d = true ->
  json_native (PyDict (dict_of_pairs d)) = true.
Proof.
  intros Hall. cbn [json_native].
  destruct (fold_dict_set_spec d []) as (Hnd & Hsub & _); [constructor|].
  fold (dict_of_pairs d) in Hnd, Hsub.
  apply andb_true_iff. split; [by apply bool_decide_eq_true|].
  apply forallb_forall. intros kv Hkv. apply list_elem_of_In in Hkv.
  destruct (Hsub kv Hkv) as [Hin|Hin]; [by apply elem_of_nil in Hin|].
  rewrite forallb_forall in Hall. apply Hall. by apply list_elem_of_In.
Qed.

Lemma parse_native fuel :
  (forall s v r, parse_value fuel s = Some (v, r) -> json_native v = true)
  /\ (forall s l r, parse_items fuel s = Some (l, r) -> forallb json_native l = true)
  /\ (forall s d r, parse_members fuel s = Some (d, r) ->
        forallb (fun kv => json_native kv.2) d = true).
Proof.
  induction fuel as [|fuel (IHv & IHl & IHd)]; [by repeat split|].
  split; [|split].
  - intros s v r. rewrite parse_value_S. intros H.
    destruct (skip_ws s) as [|c s1]; [discriminate H|]. cbv zeta in H.
    destruct (code c =? 110)%nat.
    { destruct (expect "ull" s1); [|discriminate H]. by injection H as <- _. }
    destruct (code c =? 116)%nat.
    { destruct (expect "rue" s1); [|discriminate H]. by injection H as <- _. }
    destruct (code c =? 102)%nat.
    { destruct (expect "alse" s1); [|discriminate H]. by injection H as <- _. }
    destruct (code c =? 34)%nat.
    { destruct (scan_string s1) as [[str r']|]; [|discriminate H].
      by injection H as <- _. }
    destruct (code c =? 45)%nat.
    { destruct (scan_nat s1) as [[m r']|]; [|discriminate H].
      by injection H as <- _. }
    destruct (is_digit c).
    { destruct (scan_nat (String c s1)) as [[m r']|]; [|discriminate H].
      by injection H as <- _. }
    destruct (code c =? 91)%nat.
    { destruct (skip_ws s1) as [|c' s2]; [discriminate H|].
      destruct (code c' =? 93)%nat; [by injection H as <- _|].
      destruct (parse_items fuel s1) as [[l r']|] eqn:Hl; [|discriminate H].
      injection H as <- _. cbn [json_native]. by eapply IHl. }
    destruct (code c =? 123)%nat; [|discriminate H].
    destruct (skip_ws s1) as [|c' s2]; [discriminate H|].
    destruct (code c' =? 125)%nat; [by injection H as <- _|].
    destruct (parse_members fuel s1) as [[d r']|] eqn:Hd; [|discriminate H].
    injection H as <- _. apply dict_of_pairs_native. by eapply IHd.
  - intros s l r. rewrite parse_items_S. intros H.
    destruct (parse_value fuel s) as [[v r0]|] eqn:Hv; [|discriminate H].
    cbn [mbind option_bind] in H.
    destruct (skip_ws r0) as [|c r1]; [discriminate H|].
    destruct (code c =? 44)%nat.
    { destruct (parse_items fuel r1) as [[l' r2]|] eqn:Hl; [|discriminate H].
      injection H as <- _. cbn [forallb]. apply andb_true_iff. split; eauto. }
    destruct (code c =? 93)%nat; [|discriminate H].
    injection H as <- _. cbn [forallb]. apply andb_true_iff. split; eauto.
  - intros s d r. rewrite parse_members_S. intros H.
    destruct (skip_ws s) as [|q s1]; [discriminate H|].
    destruct (code q =? 34)%nat; [|discriminate H].
    destruct (scan_string s1) as [[k r0]|]; [|discriminate H].
    cbn [mbind option_bind] in H.
    destruct (skip_ws r0) as [|c r1]; [discriminate H|].
    destruct (code c =? 58)%nat; [|discriminate H].
    destruct (parse_value fuel r1) as [[v r2]|] eqn:Hv; [|discriminate H].
    cbn [mbind option_bind] in H.
    destruct (skip_ws r2) as [|c' r3]; [discriminate H|].
    destruct (code c' =? 44)%nat.
    { destruct (parse_members fuel r3) as [[d' r4]|] eqn:Hd; [|discriminate H].
      injection H as <- _. cbn [forallb snd]. apply andb_true_iff. split; eauto. }
    destruct (code c' =? 125)%nat; [|discriminate H].
    injection H as <- _. cbn [forallb snd]. apply andb_true_iff. split; eauto.
Qed.

(** Whatever [json.loads] returns is a value of JSON's own types. *)
Lemma loads_native text v : loads text = Some v -> json_native v = true.
Proof.
  unfold loads. intros H.
  destruct (parse_value (S (String.length text)) text) as [[w r]|] eqn:Hp;
    [|discriminate H].
  cbn in H. destruct (is_empty (skip_ws r)); [|discriminate H].
  injection H as <-. by eapply (proj1 (parse_native _)).
Qed.

End ParserOutput.


Lemma dumps_indent_native v level :
  json_native v = true -> is_Some (Json.dumps_indent level v).
Proof.
  revert level.
  induction v as [ |b|z|s|l IH|l IH|d IH|l] using pyvalue_ind; intros level;
    try discriminate; try (by eexists).
  - by destruct b.
  - intros Hall. cbn [Json.dumps_indent].
    assert (Hts : is_Some (mapM (Json.dumps_indent (S level)) l)).
    { apply mapM_is_Some. simpl in Hall.
      induction IH as [|v l Hv _ IHl]; constructor;
        simpl in Hall; apply andb_true_iff in Hall as [H1 H2]; auto. }
    destruct Hts as [ts ->]. by eexists.
  - intros H. cbn [Json.dumps_indent]. simpl in H.
    apply andb_true_iff in H as [_ Hall].
    assert (Hts : is_Some (mapM (fun kv => t ← Json.dumps_indent (S level) kv.2;
                                           Some (Json.member_text kv.1 t)) d)).
    { apply mapM_is_Some.
      induction IH as [|[k v] d Hv _ IHd]; constructor;
        simpl in Hall; apply andb_true_iff in Hall as [H1 H2]; auto.
      simpl in *. destruct (Hv (S level) H1) as [t ->]. by eexists. }
    destruct Hts as [ts ->]. by eexists.
Qed.




Lemma main_get_unfold show_counts a now disk t k :
  Cli.command a = "get" ->
  Cli.present (Cli.key a) = Some k ->
  let bridge := init (Cli.agent a) in
  let g := get bridge k (Some (Cli.scope a)) PyNone t in
  Cli.main show_counts a now disk t
  = match result g with
    | Ok PyNone =>
        Outcome (Ok 1) (db g) (trace g ++ [Printed ("Memory not found: " +:+ k)])
    | Ok v =>
        match Json.dumps_indent 0 v with
        | Some text => Outcome (Ok 0) (db g) (trace g ++ [Printed text])
        | None => Outcome (Raise TypeError) (db g) (trace g ++ [])
        end
    | Raise e => Outcome (Raise e) (db g) (trace g)
    end.
Proof.
  intros Hcmd Hkey bridge g. subst g. unfold Cli.main. fold bridge.
  rewrite Hcmd, Hkey.
  change (String.eqb "get" "store") with false.
  change (String.eqb "get" "get") with true. cbv iota.
  rewrite bind_unfold.
  destruct (result (get bridge k (Some (Cli.scope a)) PyNone t)) as [v|e];
    [|reflexivity].
  destruct v; try reflexivity;
    cbn [result db trace]; destruct (Json.dumps_indent 0 _); reflexivity.
Qed.

(** X22. [main get] always passes a scope, so it never falls back: when
    there is no entry at the one key it probes ([AGENT:k] for the default
    scope agent, [k] for team and global) it prints ["Memory not found: k"]
    and exits with 1, the table untouched, whatever other entries exist. *)
Theorem main_get_not_found (show_counts : gmap string Z -> string)
    (a : Cli.args) (now : string) (disk : disk_state) (t : table) (k : string) :
  Cli.command a = "get" ->
  Cli.present (Cli.key a) = Some k ->
  let bridge := init (Cli.agent a) in
  let o := Cli.main show_counts a now disk t in
  t !! storage_key bridge (Cli.scope a) k = None ->
  result o = Ok 1
  /\ db o = t
  /\ trace o = [SelectKey (storage_key bridge (Cli.scope a) k);
                Printed ("Memory not found: " +:+ k)].
Proof.
  intros Hcmd Hkey bridge o Hmiss. subst o.
  rewrite (main_get_unfold _ _ _ _ _ _ Hcmd Hkey). fold bridge.
  rewrite get_unfold. cbn [result db trace].
  fold (storage_key bridge (Cli.scope a) k). rewrite Hmiss.
  cbn [answer result db trace]. repeat split.
Qed.

Lemma main_get_not_found_witness :
  result (Cli.main (fun _ => "") (Cli.Args "get" "atlas" (Some "status") None "agent" None)
                   "now" DiskOk team_status)
  = Ok 1.
Proof.
  exact (proj1 (main_get_not_found (fun _ => "")
                  (Cli.Args "get" "atlas" (Some "status") None "agent" None)
                  "now" DiskOk team_status "status" eq_refl eq_refl eq_refl)).
Defined.

(** X23. [main get] on a hit: the entry's access count goes up by one in any
    case.  A stored [null] is reported like a missing entry, with
    ["Memory not found: k"] and exit status 1; any other value is printed as
    indented JSON and the exit status is 0. *)
Theorem main_get_found (show_counts : gmap string Z -> string)
    (a : Cli.args) (now : string) (disk : disk_state) (t : table) (k : string)
    (r : row) (v : pyvalue) :
  Cli.command a = "get" ->
  Cli.present (Cli.key a) = Some k ->
  let bridge := init (Cli.agent a) in
  let sk := storage_key bridge (Cli.scope a) k in
  let o := Cli.main show_counts a now disk t in
  t !! sk = Some r ->
  Json.loads (value_json r) = Some v ->
  access_count <$> db o !! sk = Some (access_count r + 1)
  /\ (v = PyNone ->
      result o = Ok 1
      /\ trace o = [SelectKey sk; BumpAccess sk k;
                    Printed ("Memory not found: " +:+ k)])
  /\ (v <> PyNone ->
      exists text,
        Json.dumps_indent 0 v = Some text
        /\ result o = Ok 0
        /\ trace o = [SelectKey sk; BumpAccess sk k; Printed text]).
Proof.
  intros Hcmd Hkey bridge sk o Hr Hv. subst o.
  rewrite (main_get_unfold _ _ _ _ _ _ Hcmd Hkey). fold bridge.
  assert (Hdb : access_count
                  <$> db (get bridge k (Some (Cli.scope a)) PyNone t) !! sk
                = Some (access_count r + 1)).
  { rewrite get_access_counts. fold (storage_key bridge (Cli.scope a) k). fold sk.
    rewrite Hr, String.eqb_refl. reflexivity. }
  rewrite get_unfold in Hdb |- *. cbn [result db trace] in *.
  fold (storage_key bridge (Cli.scope a) k) in Hdb |- *. fold sk in Hdb |- *.
  rewrite Hr in Hdb |- *. cbn [answer] in *. rewrite Hv.
  destruct (dumps_indent_native v 0 (loads_native _ _ Hv)) as [text Htext].
  destruct v.
  1: { cbn [result db trace app]. split; [exact Hdb|]. split; [done|]. done. }
  all: rewrite Htext; cbn [result db trace app];
    (split; [exact Hdb|]); (split; [discriminate|]);
    intros _; exists text; by repeat split.
Qed.

Lemma main_get_found_witness :
  result (Cli.main (fun _ => "") (Cli.Args "get" "forge" (Some "status") None "team" None)
                   "now" DiskOk team_status)
  = Ok 0.
Proof.
  destruct (proj2 (proj2 (main_get_found (fun _ => "")
              (Cli.Args "get" "forge" (Some "status") None "team" None)
              "now" DiskOk team_status "status"
              (Row (String Text.dquote ("ok" +:+ String Text.dquote ""))
                   "str" "team" "ATLAS" "2026-01-18T10:00:00"
                   "2026-01-18T10:00:00" 0 None)
              (PyStr "ok") eq_refl eq_refl eq_refl eq_refl))
            ltac:(discriminate)) as (text & _ & H & _).
  exact H.
Defined.

(** X24. The exit status of [main].  Whenever [main] returns, the status is
    0 or 1, and it is 1 in two situations only: a required argument is
    missing or empty ([--key] or [--value] for store, [--key] for get and
    delete, [--query] for search), or [get] found nothing to show.  A failed
    store, a delete that removed nothing and an empty search all exit
    with 0. *)
Theorem main_exit_status (show_counts : gmap string Z -> string)
    (a : Cli.args) (now : string) (disk : disk_state) (t : table) (code : Z) :
  let bridge := init (Cli.agent a) in
  let missing :=
    (Cli.command a = "store"
     /\ (Cli.present (Cli.key a) = None \/ Cli.present (Cli.value a) = None))
    \/ (Cli.command a = "get" /\ Cli.present (Cli.key a) = None)
    \/ (Cli.command a = "search" /\ Cli.present (Cli.query a) = None)
    \/ (Cli.command a = "delete" /\ Cli.present (Cli.key a) = None) in
  let not_found :=
    Cli.command a = "get"
    /\ exists k, Cli.present (Cli.key a) = Some k
                 /\ result (get bridge k (Some (Cli.scope a)) PyNone t) = Ok PyNone in
  result (Cli.main show_counts a now disk t) = Ok code ->
  (code = 0 \/ code = 1) /\ (code = 1 <-> missing \/ not_found).
Proof.
  intros bridge missing not_found. subst missing not_found.
  destruct (String.eqb_spec (Cli.command a) "get") as [Hget|Hget].
  { destruct (Cli.present (Cli.key a)) as [k|] eqn:Hkey.
    - rewrite (main_get_unfold _ _ _ _ _ _ Hget Hkey). fold bridge.
      destruct (result (get bridge k (Some (Cli.scope a)) PyNone t)) as [v|e] eqn:Hres;
        [|discriminate].
      destruct v; cbn [result];
        try (destruct (Json.dumps_indent 0 _); [|discriminate]; cbn [result]);
        intros [= <-]; (split; [auto|]); split; try discriminate;
        try (intros _; right; split; [exact Hget|exists k; by split]);
        rewrite Hget;
        intros [[[? _]|[[_ ?]|[[? _]|[? _]]]]|[_ (k' & [= <-] & ?)]]; congruence.
    - unfold Cli.main. rewrite Hget, Hkey. cbn. intros [= <-].
      split; [auto|]. split; [|done]. intros _. left. right. left. done. }
  unfold Cli.main. fold bridge.
  destruct (String.eqb_spec (Cli.command a) "store") as [Hstore|Hstore].
  { destruct (Cli.present (Cli.key a)) as [k|] eqn:Hkey.
    2: { cbn. intros [= <-]. split; [auto|]. split; [|done]. intros _. left. auto. }
    destruct (Cli.present (Cli.value a)) as [text|] eqn:Hvalue.
    2: { cbn. intros [= <-]. split; [auto|]. split; [|done]. intros _. left. auto. }
    rewrite bind_unfold. unfold json_loads.
    destruct (Json.loads text) as [v|];
      cbn [mret M_ret raise result db trace]; [|discriminate].
    rewrite bind_unfold.
    destruct (result (store bridge k v (Cli.scope a) PyNone now disk t)) as [b|e];
      cbn [result]; [|discriminate].
    cbn. intros [= <-]. split; [auto|]. split; [discriminate|].
    rewrite Hstore.
    intros [[[_ [?|?]]|[[? _]|[[? _]|[? _]]]]|[? _]]; congruence. }
  destruct (String.eqb (Cli.command a) "get") eqn:E;
    [by apply String.eqb_eq in E|clear E].
  destruct (String.eqb_spec (Cli.command a) "search") as [Hsearch|Hsearch].
  { destruct (Cli.present (Cli.query a)) as [q|] eqn:Hq.
    2: { cbn. intros [= <-]. split; [auto|]. split; [|done]. intros _. left. auto. }
    rewrite bind_unfold, search_unfold. cbn [result db trace].
    destruct (decoded _) as [ms|e]; [|discriminate].
    rewrite !bind_unfold. cbn [print result db trace].
    rewrite print_each_unfold. cbn. intros [= <-]. split; [auto|].
    split; [discriminate|]. rewrite Hsearch.
    intros [[[? _]|[[? _]|[[_ ?]|[? _]]]]|[? _]]; congruence. }
  destruct (String.eqb_spec (Cli.command a) "list") as [Hlist|Hlist].
  { rewrite bind_unfold, list_all_unfold. cbn [result db trace].
    destruct (decoded _) as [ms|e]; [|discriminate].
    rewrite !bind_unfold. cbn [print result db trace].
    rewrite print_each_unfold. cbn. intros [= <-]. split; [auto|].
    split; [discriminate|]. rewrite Hlist.
    intros [[[? _]|[[? _]|[[? _]|[? _]]]]|[? _]]; congruence. }
  destruct (String.eqb_spec (Cli.command a) "delete") as [Hdel|Hdel].
  { destruct (Cli.present (Cli.key a)) as [k|] eqn:Hkey.
    2: { cbn. intros [= <-]. split; [auto|]. split; [|done]. intros _. left. auto 6. }
    cbn. intros [= <-]. split; [auto|]. split; [discriminate|]. rewrite Hdel.
    intros [[[? _]|[[? _]|[[? _]|[_ ?]]]]|[? _]]; congruence. }
  destruct (String.eqb (Cli.command a) "stats").
  - rewrite bind_unfold, get_stats_unfold. cbn. intros [= <-].
    split; [auto|]. split; [discriminate|].
    intros [[[? _]|[[? _]|[[? _]|[? _]]]]|[? _]]; done.
  - cbn. intros [= <-]. split; [auto|]. split; [discriminate|].
    intros [[[? _]|[[? _]|[[? _]|[? _]]]]|[? _]]; done.
Qed.

Lemma main_exit_status_witness : (0 = 0 \/ 0 = 1).
Proof.
  exact (proj1 (main_exit_status (fun _ => "")
                  (Cli.Args "delete" "forge" (Some "nothing") None "agent" None)
                  "now" DiskOk team_status 0 eq_refl)).
Defined.

Lemma delete_unfold self key sc t :
  MemoryBridge.delete self key (Some sc) t
  = Outcome (Ok (if t !! storage_key self sc key is Some _ then true else false))
            (base.delete (storage_key self sc key) t)
            [DeleteKey (storage_key self sc key)].
Proof.
  unfold MemoryBridge.delete, storage_key, mbind, M_bind, Sql.delete_key. cbn.
  by destruct (t !! _).
Qed.

(** X25. [main delete] with a key removes the entry at the derived storage
    key, prints ["[OK] Memory deleted: k"] when there was one and
    ["[FAIL] Memory deleted: k"] when there was none, and exits with 0 in
    both cases. *)
Theorem main_delete_reports (show_counts : gmap string Z -> string)
    (a : Cli.args) (now : string) (disk : disk_state) (t : table) (k : string) :
  Cli.command a = "delete" ->
  Cli.present (Cli.key a) = Some k ->
  let bridge := init (Cli.agent a) in
  let sk := storage_key bridge (Cli.scope a) k in
  let o := Cli.main show_counts a now disk t in
  result o = Ok 0
  /\ db o = base.delete sk t
  /\ trace o = [DeleteKey sk;
                Printed ("[" +:+ (if t !! sk is Some _ then "OK" else "FAIL")
                         +:+ "] Memory deleted: " +:+ k)].
Proof.
  intros Hcmd Hkey bridge sk o. subst o. unfold Cli.main. fold bridge.
  rewrite Hcmd, Hkey.
  change (String.eqb "delete" "store") with false.
  change (String.eqb "delete" "get") with false.
  change (String.eqb "delete" "search") with false.
  change (String.eqb "delete" "list") with false.
  change (String.eqb "delete" "delete") with true. cbv iota.
  rewrite bind_unfold, delete_unfold. fold sk. cbn [result db trace].
  destruct (t !! sk); repeat split.
Qed.

Lemma main_delete_reports_witness :
  trace (Cli.main (fun _ => "") (Cli.Args "delete" "forge" (Some "nothing") None "agent" None)
                  "now" DiskOk team_status)
  = [DeleteKey "FORGE:nothing"; Printed "[FAIL] Memory deleted: nothing"].
Proof.
  exact (proj2 (proj2 (main_delete_reports (fun _ => "")
                         (Cli.Args "delete" "forge" (Some "nothing") None "agent" None)
                         "now" DiskOk team_status "nothing" eq_refl eq_refl))).
Defined.

(** ** [Memory.to_dict] *)

(** X26. [to_dict] of a [Memory] whose value and metadata are of JSON's own
    types (as [search] and [list_all] return them) is a dict that
    [json.dumps] accepts and [json.loads] gives back unchanged, with the
    eight fields in their order. *)
Theorem to_dict_round_trip (m : Memory.t) :
  json_native (Memory.value m) = true ->
  json_native (Memory.metadata m) = true ->
  exists text,
    Json.dumps (Memory.to_dict m) = Some text
    /\ Json.loads text = Some (Memory.to_dict m)
    /\ exists d, Memory.to_dict m = PyDict d
                 /\ d.*1 = ["key"; "value"; "scope"; "owner"; "created"; "updated";
                            "access_count"; "metadata"].
Proof.
  intros Hv Hm.
  assert (Hnat : json_native (Memory.to_dict m) = true).
  { unfold Memory.to_dict. cbn [json_native forallb snd]. rewrite Hv, Hm.
    apply andb_true_iff. split; [|reflexivity].
    vm_compute. reflexivity. }
  destruct (json_round_trip _ Hnat) as (text & H1 & H2).
  exists text. split; [exact H1|]. split; [exact H2|].
  eexists. split; reflexivity.
Qed.

Lemma to_dict_round_trip_witness :
  exists text,
    Json.dumps (Memory.to_dict
                  (Memory.mk "status" (PyStr "ok") "team" "ATLAS" "2026-01-18T10:00:00"
                             "2026-01-18T10:00:00" 0 PyNone)) = Some text.
Proof.
  destruct (to_dict_round_trip
              (Memory.mk "status" (PyStr "ok") "team" "ATLAS" "2026-01-18T10:00:00"
                         "2026-01-18T10:00:00" 0 PyNone) eq_refl eq_refl)
    as (text & H & _).
  exists text. exact H.
Defined.
